(** * The lint-report scripts of [frontend/scripts]

    A shallow embedding of [lint_files.py], [lint_report_summary.py] and
    [lint_summary.py], and the properties of their filtering and printing.

    The three scripts read [lint-report.json], keep the entries that carry
    an error or a warning count, and print them at three levels of detail.
    They see the report only through [Path.exists], [Path.read_text] and
    [json.loads]; what they do afterwards is ordinary Python on the parsed
    value, and that is what is embedded here.

    Boundaries of the model.
    - JSON numbers are integers (the counts, lines and columns of a lint
      report); numbers with a fraction or an exponent are left out, and with
      them the literals [NaN] and [Infinity], which [json.loads] accepts
      though they are not JSON.
    - A character of a string is one [ascii], read as one code point
      below 256; [print] of such a string does not fail, and the encoding
      errors of [print] on other strings are left out.
    - A file that exists is a readable regular file of valid UTF-8, and
      [json.loads] fails on it with [JSONDecodeError] only: the
      [UnicodeDecodeError] of [read_text] and the [ValueError] of
      [json.loads] on an integer beyond the digit limit are left out. *)

From Stdlib Require Import ZArith List String Ascii Bool Lia DecimalString.
Import ListNotations.

Local Open Scope string_scope.
Local Open Scope Z_scope.

Set Warnings "-register-all".

(** ** Python values as [json.loads] builds them *)

Module Py.

(** A dict keeps its insertion order, which iteration and [repr] show, so it
    is an association list; [json.loads] builds it with distinct keys, and
    lookup takes the first binding. *)
Inductive value : Type :=
| VNone
| VBool (b : bool)
| VInt (n : Z)
| VStr (s : string)
| VList (items : list value)
| VDict (fields : list (string * value)).

Definition dict := list (string * value).

(** The exceptions the scripts can end with. *)
Inductive exn : Type :=
| FileNotFoundError
| JSONDecodeError
| TypeError
| AttributeError
| KeyError (key : string)
| SystemExit (arg : string).

Inductive result (A : Type) : Type :=
| Ok (a : A)
| Raise (e : exn).
Arguments Ok {A} a.
Arguments Raise {A} e.

Definition rbind {A B} (r : result A) (k : A -> result B) : result B :=
  match r with
  | Ok a => k a
  | Raise e => Raise e
  end.

(** *** Truth value, [len], iteration, attribute and item access *)

(** [bool(v)]: None, False, 0 and the empty string, list and dict are
    false; everything else is true. *)
Definition truthy (v : value) : bool :=
  match v with
  | VNone => false
  | VBool b => b
  | VInt n => negb (n =? 0)
  | VStr s => negb (String.length s =? 0)%nat
  | VList l => negb (List.length l =? 0)%nat
  | VDict d => negb (List.length d =? 0)%nat
  end.

Fixpoint lookup (d : dict) (k : string) : option value :=
  match d with
  | [] => None
  | (k', v) :: rest => if String.eqb k' k then Some v else lookup rest k
  end.

(** [v.get(k, dflt)]: only a dict has the method. *)
Definition get (v : value) (k : string) (dflt : value) : result value :=
  match v with
  | VDict d =>
      match lookup d k with
      | Some x => Ok x
      | None => Ok dflt
      end
  | _ => Raise AttributeError
  end.

(** [v[k]] with a string key. *)
Definition getitem (v : value) (k : string) : result value :=
  match v with
  | VDict d =>
      match lookup d k with
      | Some x => Ok x
      | None => Raise (KeyError k)
      end
  | _ => Raise TypeError
  end.

Fixpoint chars (s : string) : list value :=
  match s with
  | EmptyString => []
  | String c rest => VStr (String c EmptyString) :: chars rest
  end.

(** What [for x in v] goes through: the items of a list, the keys of a
    dict, the characters of a string. *)
Definition iter (v : value) : result (list value) :=
  match v with
  | VList l => Ok l
  | VDict d => Ok (map (fun kv => VStr (fst kv)) d)
  | VStr s => Ok (chars s)
  | _ => Raise TypeError
  end.

Definition len (v : value) : result Z :=
  match v with
  | VList l => Ok (Z.of_nat (List.length l))
  | VDict d => Ok (Z.of_nat (List.length d))
  | VStr s => Ok (Z.of_nat (String.length s))
  | _ => Raise TypeError
  end.

(** *** [str] and [repr] *)

Definition str_of_Z (n : Z) : string := NilZero.string_of_int (Z.to_int n).

Definition hex_digit (n : N) : ascii :=
  match String.get (N.to_nat n) "0123456789abcdef" with
  | Some c => c
  | None => "0"%char
  end.

Definition hex_escape (n : N) : string :=
  String "\" (String "x" (String (hex_digit (n / 16)) (String (hex_digit (n mod 16)) EmptyString))).

Definition tab_char : ascii := ascii_of_nat 9.
Definition newline_char : ascii := ascii_of_nat 10.
Definition return_char : ascii := ascii_of_nat 13.
Definition squote : ascii := ascii_of_nat 39.
Definition dquote : ascii := ascii_of_nat 34.
Definition backslash : ascii := ascii_of_nat 92.

(** One character inside a string literal quoted with [q]. *)
Definition repr_char (q c : ascii) : string :=
  let n := N_of_ascii c in
  if (Ascii.eqb c q || Ascii.eqb c backslash)%bool then String backslash (String c EmptyString)
  else if Ascii.eqb c tab_char then String backslash "t"
  else if Ascii.eqb c newline_char then String backslash "n"
  else if Ascii.eqb c return_char then String backslash "r"
  else if ((n <? 32) || (n =? 127))%N%bool then hex_escape n
  else if (n <? 127)%N then String c EmptyString
  else if ((n <=? 160) || (n =? 173))%N%bool then hex_escape n
  else String c EmptyString.

Fixpoint contains (c : ascii) (s : string) : bool :=
  match s with
  | EmptyString => false
  | String c' rest => (Ascii.eqb c' c || contains c rest)%bool
  end.

Fixpoint repr_chars (q : ascii) (s : string) : string :=
  match s with
  | EmptyString => EmptyString
  | String c rest => repr_char q c ++ repr_chars q rest
  end.

(** [repr] of a string: single quotes, unless the string has a single quote
    and no double quote. *)
Definition repr_str (s : string) : string :=
  let q := if (contains squote s && negb (contains dquote s))%bool then dquote else squote in
  String q (repr_chars q s ++ String q EmptyString).

Fixpoint join (sep : string) (parts : list string) : string :=
  match parts with
  | [] => EmptyString
  | [p] => p
  | p :: rest => p ++ sep ++ join sep rest
  end.

Fixpoint repr (v : value) : string :=
  match v with
  | VNone => "None"
  | VBool true => "True"
  | VBool false => "False"
  | VInt n => str_of_Z n
  | VStr s => repr_str s
  | VList l => "[" ++ join ", " (map repr l) ++ "]"
  | VDict d =>
      "{" ++ join ", " (map (fun kv => match kv with
                                        | (k, x) => repr_str k ++ ": " ++ repr x
                                        end) d) ++ "}"
  end.

(** [str(v)], which is also what an f-string field and [print] show. *)
Definition str (v : value) : string :=
  match v with
  | VStr s => s
  | _ => repr v
  end.

(** *** Running a script: what it printed and how it ended *)

(** A script is a computation that prints and may raise. [printed] has one
    item per [print] call, in order; what was printed before an exception
    stays printed. *)
Record run (A : Type) : Type := Run {
  printed : list string;
  ending : result A
}.
Arguments Run {A} printed ending.
Arguments printed {A} r.
Arguments ending {A} r.

Definition ret {A} (a : A) : run A := Run [] (Ok a).

Definition raise {A} (e : exn) : run A := Run [] (Raise e).

Definition lift {A} (r : result A) : run A := Run [] r.

Definition print (s : string) : run unit := Run [s] (Ok tt).

Definition bind {A B} (m : run A) (k : A -> run B) : run B :=
  match ending m with
  | Ok a => Run (printed m ++ printed (k a)) (ending (k a))
  | Raise e => Run (printed m) (Raise e)
  end.

(** [for x in xs: body]. *)
Fixpoint for_each {A} (xs : list A) (body : A -> run unit) : run unit :=
  match xs with
  | [] => ret tt
  | x :: rest => bind (body x) (fun _ => for_each rest body)
  end.

(** [[elt(x) for x in xs if cond(x)]]: the condition, then the element, item
    by item; the first exception ends it. *)
Fixpoint comprehension {A} (cond : value -> result bool) (elt : value -> result A)
    (xs : list value) : result (list A) :=
  match xs with
  | [] => Ok []
  | x :: rest =>
      rbind (cond x) (fun keep =>
        if keep
        then rbind (elt x) (fun y =>
               rbind (comprehension cond elt rest) (fun ys => Ok (y :: ys)))
        else comprehension cond elt rest)
  end.

(** The text on standard output: [print] ends each item with a newline. *)
Definition stdout_text {A} (r : run A) : string :=
  concat EmptyString (map (fun s => s ++ String newline_char EmptyString) (printed r)).

(** The exit status of the interpreter: 0 at the end of the script, 1 after
    an uncaught exception, and 1 after [SystemExit] with a string, which
    goes to standard error. *)
Definition exit_status {A} (r : run A) : Z :=
  match ending r with
  | Ok _ => 0
  | Raise _ => 1
  end.

Definition stderr_message {A} (r : run A) : option string :=
  match ending r with
  | Raise (SystemExit msg) => Some msg
  | _ => None
  end.

End Py.

Declare Scope py_scope.
Notation "x <- m ;; k" := (Py.bind m (fun x => k))
  (at level 61, m at next level, right associativity) : py_scope.
Notation "m ;; k" := (Py.bind m (fun _ => k))
  (at level 61, right associativity) : py_scope.
Notation "x <-? r ;; k" := (Py.rbind r (fun x => k))
  (at level 61, r at next level, right associativity) : py_scope.
Local Open Scope py_scope.

(** ** The report file *)

Import Py.

(** The file as the scripts see it: [exists()] is false and [read_text()]
    raises; or [json.loads] rejects the text with [JSONDecodeError]; or
    [json.loads] returns a value. *)
Inductive report_file : Type :=
| Missing
| NotJson
| Json (data : value).

Definition exists_ (f : report_file) : bool :=
  match f with
  | Missing => false
  | _ => true
  end.

(** [json.loads(report_path.read_text(encoding="utf-8"))] *)
Definition load (f : report_file) : result value :=
  match f with
  | Missing => Raise FileNotFoundError
  | NotJson => Raise JSONDecodeError
  | Json data => Ok data
  end.

(** ** The scripts *)

(** [entry.get("errorCount") or entry.get("warningCount")], taken as the
    condition of a comprehension: [or] gives its left operand when that is
    true and does not evaluate the right one. *)
Definition has_issues (entry : value) : result bool :=
  e <-? get entry "errorCount" VNone ;;
  if truthy e then Ok true
  else w <-? get entry "warningCount" VNone ;; Ok (truthy w).

Definition not_found : string :=
  "lint-report.json not found. Run eslint with JSON output first.".

Definition files_with_issues (n : nat) : string :=
  str_of_Z (Z.of_nat n) ++ " files with issues".

Module lint_files.

Definition files (data : value) : result (list value) :=
  items <-? iter data ;;
  comprehension has_issues (fun entry => getitem entry "filePath") items.

Definition main (f : report_file) : run unit :=
  data <- lift (load f) ;;
  files <- lift (files data) ;;
  for_each files (fun path => print (str path)).

End lint_files.

Module lint_report_summary.

Definition entries (data : value) : result (list value) :=
  items <-? iter data ;;
  comprehension has_issues (fun entry => Ok entry) items.

Definition cap : nat := 20.

(** The body of the loop over [entries[:20]]. *)
Definition body (entry : value) : run unit :=
  messages <- lift (get entry "messages" (VList [])) ;;
  count <- lift (len messages) ;;
  path <- lift (getitem entry "filePath") ;;
  print (str path ++ " - " ++ str_of_Z count ++ " messages").

Definition main (f : report_file) : run unit :=
  if negb (exists_ f) then raise (SystemExit not_found)
  else
    data <- lift (load f) ;;
    entries <- lift (entries data) ;;
    print (files_with_issues (List.length entries)) ;;
    for_each (firstn cap entries) body.

End lint_report_summary.

Module lint_summary.

Definition entries (data : value) : result (list value) :=
  items <-? iter data ;;
  comprehension has_issues (fun entry => Ok entry) items.

(** The body of the loop over the messages of an entry. *)
Definition message_line (msg : value) : run unit :=
  rule <- lift (get msg "ruleId" (VStr "<no-rule>")) ;;
  message <- lift (get msg "message" (VStr "<no-message>")) ;;
  line <- lift (get msg "line" (VInt 0)) ;;
  col <- lift (get msg "column" (VInt 0)) ;;
  print ("  " ++ str rule ++ ": " ++ str message ++ " @" ++ str line ++ ":" ++ str col).

(** The body of the loop over [entries]. *)
Definition body (entry : value) : run unit :=
  path <- lift (getitem entry "filePath") ;;
  print (String newline_char (str path)) ;;
  messages <- lift (get entry "messages" (VList [])) ;;
  msgs <- lift (iter messages) ;;
  for_each msgs message_line.

Definition main (f : report_file) : run unit :=
  if negb (exists_ f) then raise (SystemExit not_found)
  else
    data <- lift (load f) ;;
    entries <- lift (entries data) ;;
    print (files_with_issues (List.length entries)) ;;
    for_each entries body.

End lint_summary.

(** ** The data model of the specification *)

(** A count field of a FileEntry: an integer, zero when the key is absent. *)
Definition count_of (d : dict) (k : string) : Z :=
  match lookup d k with
  | Some (VInt n) => n
  | _ => 0
  end.

(** A FileEntry is flagged when its error count or its warning count is
    positive. *)
Definition flagged (entry : value) : bool :=
  match entry with
  | VDict d => (0 <? count_of d "errorCount") || (0 <? count_of d "warningCount")
  | _ => false
  end.

Definition is_count (d : dict) (k : string) : bool :=
  match lookup d k with
  | None => true
  | Some (VInt n) => 0 <=? n
  | Some _ => false
  end.

Definition is_object (v : value) : bool :=
  match v with
  | VDict _ => true
  | _ => false
  end.

(** A FileEntry: an object with a [filePath] string, counts that are
    non-negative integers or absent, and [messages] a sequence of objects
    or absent. *)
Definition is_file_entry (entry : value) : bool :=
  match entry with
  | VDict d =>
      match lookup d "filePath" with
      | Some (VStr _) => true
      | _ => false
      end
      && is_count d "errorCount"
      && is_count d "warningCount"
      && match lookup d "messages" with
         | None => true
         | Some (VList msgs) => forallb is_object msgs
         | Some _ => false
         end
  | _ => false
  end.

Definition is_report (data : list value) : bool := forallb is_file_entry data.

Definition array_of_objects (v : value) : bool :=
  match v with
  | VList items => forallb is_object items
  | _ => false
  end.

(** The file exists, and [json.loads] rejects its text or its top-level
    value is not an array of objects. *)
Definition malformed (f : report_file) : bool :=
  match f with
  | Missing => false
  | NotJson => true
  | Json v => negb (array_of_objects v)
  end.

Definition parse_or_shape_error (e : exn) : Prop :=
  e = JSONDecodeError \/ e = TypeError \/ e = AttributeError.

(** The value [d.get(k, dflt)] gives on a dict. *)
Definition lookup_or (d : dict) (k : string) (dflt : value) : value :=
  match lookup d k with
  | Some v => v
  | None => dflt
  end.

(** The lines of a text, each ended by a newline. *)
Fixpoint lines_from (current : string) (text : string) : list string :=
  match text with
  | EmptyString =>
      match current with
      | EmptyString => []
      | _ => [current]
      end
  | String c rest =>
      if Ascii.eqb c newline_char then current :: lines_from EmptyString rest
      else lines_from (current ++ String c EmptyString) rest
  end.

(** The lines of standard output, each ended by a newline. *)
Definition stdout_lines {A} (r : run A) : list string :=
  lines_from EmptyString (stdout_text r).

(** ** Reports used as examples *)

Definition sample_entry (path : string) (errors warnings : Z) : value :=
  VDict [("filePath", VStr path); ("errorCount", VInt errors);
         ("warningCount", VInt warnings); ("messages", VList [])].

Definition sample_report : list value :=
  [sample_entry "a.ts" 2 0; sample_entry "b.ts" 0 0; VDict [("filePath", VStr "c.ts")];
   sample_entry "d.ts" 0 3].

Definition numbered_entry (i : nat) : value :=
  VDict [("filePath", VStr ("src/file" ++ str_of_Z (Z.of_nat i) ++ ".ts"));
         ("errorCount", VInt 1);
         ("messages", VList [VDict [("ruleId", VStr "semi"); ("line", VInt (Z.of_nat i))]])].

Definition report_of_25 : list value := map numbered_entry (seq 1 25).

Definition parse_error_message : dict :=
  [("message", VStr "Parsing error"); ("line", VInt 7)].

Definition parse_error_entry : dict :=
  [("filePath", VStr "b.ts"); ("warningCount", VInt 2);
   ("messages", VList [VDict [("ruleId", VStr "semi")]; VDict parse_error_message])].

Definition parse_error_report : list value :=
  [sample_entry "clean.ts" 0 0; VDict parse_error_entry].

Definition null_rule_message : dict :=
  [("ruleId", VNone); ("message", VStr "Parsing error: unexpected token");
   ("line", VInt 12); ("column", VInt 4)].

Definition null_rule_entry : dict :=
  [("filePath", VStr "src/app.ts"); ("errorCount", VInt 1); ("warningCount", VInt 0);
   ("messages", VList [VDict null_rule_message])].

Definition null_message_entry : dict :=
  [("filePath", VStr "src/b.ts"); ("errorCount", VInt 0); ("warningCount", VInt 1);
   ("messages", VList [VDict [("ruleId", VStr "semi"); ("message", VNone)]])].

Definition scenario_b : report_file :=
  Json (VList
    [VDict [("filePath", VStr "a.ts"); ("errorCount", VInt 2); ("warningCount", VInt 0);
            ("messages",
             VList [VDict [("ruleId", VStr "no-unused-vars"); ("message", VStr "x is unused");
                           ("line", VInt 3); ("column", VInt 5)]])]]).

(** ** The filter and the exceptions as the code has them *)

(** The condition of the comprehension on an item, when it does not raise:
    the truth value of [entry.get("errorCount") or entry.get("warningCount")]. *)
Definition keeps (entry : value) : bool :=
  match entry with
  | VDict d =>
      truthy (lookup_or d "errorCount" VNone) || truthy (lookup_or d "warningCount" VNone)
  | _ => false
  end.

(** The exceptions that the contents of the report file can cause. *)
Definition data_error (e : exn) : Prop :=
  e = JSONDecodeError \/ e = TypeError \/ e = AttributeError \/ e = KeyError "filePath".

(** ** Lemmas on runs and loops *)

Lemma bind_lift_ok {A B} (a : A) (k : A -> run B) : bind (lift (Ok a)) k = k a.
Proof. unfold bind, lift; simpl. now destruct (k a). Qed.

Lemma bind_print {B} (s : string) (k : unit -> run B) :
  bind (print s) k = Run (s :: printed (k tt)) (ending (k tt)).
Proof. reflexivity. Qed.

Lemma bind_done {A B} (out : list string) (a : A) (k : A -> run B) :
  bind (Run out (Ok a)) k = Run (out ++ printed (k a)) (ending (k a)).
Proof. reflexivity. Qed.

(** A loop whose body succeeds on every item prints the bodies' output in
    order. *)
Lemma for_each_done {A} (body : A -> run unit) (xs : list A) (outs : list (list string)) :
  Forall2 (fun x out => body x = Run out (Ok tt)) xs outs ->
  for_each xs body = Run (List.concat outs) (Ok tt).
Proof.
  induction 1 as [|x out xs outs Hx _ IH]; simpl.
  - reflexivity.
  - rewrite Hx, bind_done, IH. reflexivity.
Qed.

Lemma for_each_lines {A} (body : A -> run unit) (xs : list A) (lines : list string) :
  Forall2 (fun x l => body x = Run [l] (Ok tt)) xs lines ->
  for_each xs body = Run lines (Ok tt).
Proof.
  induction 1 as [|x l xs lines Hx _ IH]; simpl.
  - reflexivity.
  - rewrite Hx, bind_done, IH. reflexivity.
Qed.

(** A loop prints no more than its bodies do. *)
Lemma for_each_printed_le {A} (body : A -> run unit) (n : nat) (xs : list A) :
  (forall x, List.length (printed (body x)) <= n)%nat ->
  (List.length (printed (for_each xs body)) <= n * List.length xs)%nat.
Proof.
  intros Hbody. induction xs as [|x xs IH]; simpl.
  - lia.
  - unfold bind. specialize (Hbody x).
    destruct (ending (body x)); simpl.
    + rewrite length_app. lia.
    + lia.
Qed.

(** A comprehension whose condition and element never raise is a filter
    followed by a map. *)
Lemma comprehension_filter_map {A} (cond : value -> result bool) (elt : value -> result A)
    (p : value -> bool) (g : value -> A) (xs : list value) :
  Forall (fun x => cond x = Ok (p x) /\ (p x = true -> elt x = Ok (g x))) xs ->
  comprehension cond elt xs = Ok (map g (filter p xs)).
Proof.
  induction 1 as [|x xs [Hc He] _ IH]; simpl.
  - reflexivity.
  - rewrite Hc; simpl. destruct (p x) eqn:Hp.
    + rewrite (He eq_refl); simpl. rewrite IH. reflexivity.
    + exact IH.
Qed.

(** ** The filter on well-formed entries *)

Lemma is_count_truthy (d : dict) (k : string) :
  is_count d k = true ->
  exists v, get (VDict d) k VNone = Ok v /\ truthy v = (0 <? count_of d k).
Proof.
  unfold is_count, count_of, get. destruct (lookup d k) as [v|].
  - destruct v; try discriminate. intros Hn. eexists; split; [reflexivity|].
    simpl. apply Z.leb_le in Hn.
    destruct (Z.eqb_spec n 0), (Z.ltb_spec 0 n); simpl; try reflexivity; lia.
  - intros _. exists VNone. split; reflexivity.
Qed.

Lemma file_entry_fields (entry : value) :
  is_file_entry entry = true ->
  exists d path,
    entry = VDict d
    /\ lookup d "filePath" = Some (VStr path)
    /\ is_count d "errorCount" = true
    /\ is_count d "warningCount" = true
    /\ (lookup d "messages" = None
        \/ exists msgs, lookup d "messages" = Some (VList msgs)
                        /\ forallb is_object msgs = true).
Proof.
  destruct entry as [| | | | |d]; try discriminate. simpl.
  intros H. repeat (apply andb_prop in H; destruct H as [H ?]).
  destruct (lookup d "filePath") as [[| | |path| |]|] eqn:Hp; try discriminate.
  exists d, path. repeat split; try assumption.
  destruct (lookup d "messages") as [[| | | |msgs|]|]; try discriminate.
  - right. exists msgs. split; [reflexivity | assumption].
  - left. reflexivity.
Qed.

Lemma has_issues_file_entry (entry : value) :
  is_file_entry entry = true -> has_issues entry = Ok (flagged entry).
Proof.
  intros H. destruct (file_entry_fields entry H) as (d & path & -> & _ & He & Hw & _).
  destruct (is_count_truthy d "errorCount" He) as (e & Ge & Te).
  destruct (is_count_truthy d "warningCount" Hw) as (w & Gw & Tw).
  unfold has_issues. rewrite Ge; cbn [rbind]. rewrite Te. unfold flagged.
  destruct (0 <? count_of d "errorCount"); cbn [orb].
  - reflexivity.
  - rewrite Gw; cbn [rbind]. rewrite Tw. reflexivity.
Qed.

Lemma Forall_choose {A B} (R : A -> B -> Prop) (xs : list A) :
  Forall (fun x => exists y, R x y) xs -> exists ys, Forall2 R xs ys.
Proof.
  induction 1 as [|x xs [y Hy] _ [ys IH]].
  - exists []. constructor.
  - exists (y :: ys). now constructor.
Qed.

Lemma In_firstn {A} (n : nat) (x : A) (l : list A) : In x (firstn n l) -> In x l.
Proof.
  intros H. rewrite <- (firstn_skipn n l). apply in_or_app. now left.
Qed.

Lemma report_filter (data : list value) :
  is_report data = true -> Forall (fun e => is_file_entry e = true) (filter flagged data).
Proof.
  unfold is_report. rewrite forallb_forall, Forall_forall.
  intros H e He. apply filter_In in He. apply H, He.
Qed.

Lemma entries_report (data : list value) :
  is_report data = true ->
  comprehension has_issues (fun entry => Ok entry) data = Ok (filter flagged data).
Proof.
  intros H.
  rewrite (comprehension_filter_map has_issues _ flagged (fun e => e)).
  - now rewrite map_id.
  - unfold is_report in H. rewrite forallb_forall in H. apply Forall_forall.
    intros e He. split; [apply has_issues_file_entry, H, He | reflexivity].
Qed.

(** ** What the loop bodies print *)

Lemma get_dict (d : dict) (k : string) (dflt : value) :
  get (VDict d) k dflt = Ok (lookup_or d k dflt).
Proof. unfold get, lookup_or. now destruct (lookup d k). Qed.

Lemma message_line_dict (d : dict) :
  lint_summary.message_line (VDict d) =
  Run ["  " ++ str (lookup_or d "ruleId" (VStr "<no-rule>")) ++ ": "
       ++ str (lookup_or d "message" (VStr "<no-message>")) ++ " @"
       ++ str (lookup_or d "line" (VInt 0)) ++ ":"
       ++ str (lookup_or d "column" (VInt 0))] (Ok tt).
Proof.
  unfold lint_summary.message_line.
  rewrite !get_dict, !bind_lift_ok. reflexivity.
Qed.

Lemma message_lines_done (msgs : list value) :
  forallb is_object msgs = true ->
  exists lines,
    for_each msgs lint_summary.message_line = Run lines (Ok tt)
    /\ List.length lines = List.length msgs.
Proof.
  intros H. rewrite forallb_forall in H.
  destruct (Forall_choose
              (fun m l => lint_summary.message_line m = Run [l] (Ok tt)) msgs)
    as [lines Hl].
  - apply Forall_forall. intros m Hm. specialize (H m Hm).
    destruct m; try discriminate. eexists. apply message_line_dict.
  - exists lines. split.
    + now apply for_each_lines.
    + symmetry. eapply Forall2_length, Hl.
Qed.

Lemma compact_body_file_entry (entry : value) :
  is_file_entry entry = true ->
  exists l, lint_report_summary.body entry = Run [l] (Ok tt).
Proof.
  intros H. destruct (file_entry_fields entry H) as (d & path & -> & Hp & _ & _ & Hm).
  unfold lint_report_summary.body. rewrite get_dict, bind_lift_ok.
  unfold lookup_or, getitem.
  destruct Hm as [-> | (msgs & -> & _)]; simpl len;
    rewrite bind_lift_ok, Hp, bind_lift_ok; eexists; reflexivity.
Qed.

Lemma detail_body_file_entry (entry : value) :
  is_file_entry entry = true ->
  exists path lines,
    getitem entry "filePath" = Ok path
    /\ lint_summary.body entry = Run (String newline_char (str path) :: lines) (Ok tt).
Proof.
  intros H. destruct (file_entry_fields entry H) as (d & path & -> & Hp & _ & _ & Hm).
  exists (VStr path). unfold lint_summary.body, getitem. rewrite Hp, bind_lift_ok, bind_print.
  rewrite get_dict, bind_lift_ok. unfold lookup_or.
  destruct Hm as [-> | (msgs & -> & Hmsgs)]; simpl iter; rewrite bind_lift_ok.
  - exists []. split; reflexivity.
  - destruct (message_lines_done msgs Hmsgs) as (lines & -> & _).
    exists lines. split; reflexivity.
Qed.

Lemma compact_body_prints_one (entry : value) :
  (List.length (printed (lint_report_summary.body entry)) <= 1)%nat.
Proof.
  unfold lint_report_summary.body.
  destruct (get entry "messages" (VList [])) as [m|e]; [rewrite bind_lift_ok | simpl; lia].
  destruct (len m) as [n|e]; [rewrite bind_lift_ok | simpl; lia].
  destruct (getitem entry "filePath") as [p|e]; [rewrite bind_lift_ok | simpl; lia].
  simpl. lia.
Qed.

(** ** Properties of the filter *)

(** C1. On a report (a list of FileEntry records whose counts are
    non-negative integers or absent) the filtering step of the three scripts
    keeps exactly the entries with [errorCount > 0] or [warningCount > 0],
    an absent count read as zero, in their order in the report:
    [lint_report_summary] and [lint_summary] hold these entries, and
    [lint_files] holds the [filePath] of each of them. *)
Theorem issue_filter_exact (data : list value) :
  is_report data = true ->
  lint_report_summary.entries (VList data) = Ok (filter flagged data)
  /\ lint_summary.entries (VList data) = Ok (filter flagged data)
  /\ exists paths,
       lint_files.files (VList data) = Ok paths
       /\ Forall2 (fun entry path => getitem entry "filePath" = Ok path)
            (filter flagged data) paths.
Proof.
  intros H. split; [|split].
  - apply entries_report, H.
  - apply entries_report, H.
  - pose (path_of := fun e => match getitem e "filePath" with
                              | Ok p => p
                              | Raise _ => VNone
                              end).
    assert (Hpath : forall e, is_file_entry e = true ->
                              getitem e "filePath" = Ok (path_of e)).
    { intros e He. destruct (file_entry_fields e He) as (d & p & -> & Hp & _).
      unfold path_of, getitem. now rewrite Hp. }
    exists (map path_of (filter flagged data)). split.
    + unfold lint_files.files. simpl iter. cbn [rbind].
      apply comprehension_filter_map.
      unfold is_report in H. rewrite forallb_forall in H. apply Forall_forall.
      intros e He. split; [apply has_issues_file_entry, H, He | intros _; apply Hpath, H, He].
    + pose proof (report_filter data H) as Hf.
      induction Hf as [|e es He _ IH]; simpl; constructor; auto.
Qed.

Lemma issue_filter_exact_witness :
  is_report sample_report = true
  /\ lint_report_summary.entries (VList sample_report)
     = Ok [sample_entry "a.ts" 2 0; sample_entry "d.ts" 0 3].
Proof.
  split; [reflexivity | exact (proj1 (issue_filter_exact sample_report eq_refl))].
Defined.

(** ** The display cap *)

Lemma compact_main_report (data : list value) :
  is_report data = true ->
  exists lines,
    lint_report_summary.main (Json (VList data))
    = Run (files_with_issues (List.length (filter flagged data)) :: lines) (Ok tt)
    /\ Forall2 (fun entry l => lint_report_summary.body entry = Run [l] (Ok tt))
         (firstn 20 (filter flagged data)) lines.
Proof.
  intros H.
  destruct (Forall_choose
              (fun entry l => lint_report_summary.body entry = Run [l] (Ok tt))
              (firstn 20 (filter flagged data))) as [lines Hl].
  - apply Forall_forall. intros e He. apply compact_body_file_entry.
    pose proof (report_filter data H) as Hf. rewrite Forall_forall in Hf.
    apply Hf. eapply In_firstn, He.
  - exists lines. split; [|exact Hl].
    unfold lint_report_summary.main. simpl negb. cbv iota. simpl load.
    rewrite bind_lift_ok. unfold lint_report_summary.entries. simpl iter. cbn [rbind].
    rewrite (entries_report data H), bind_lift_ok, bind_print.
    unfold lint_report_summary.cap. rewrite (for_each_lines _ _ _ Hl). reflexivity.
Qed.

Lemma detail_main_report (data : list value) :
  is_report data = true ->
  exists blocks,
    lint_summary.main (Json (VList data))
    = Run (files_with_issues (List.length (filter flagged data)) :: List.concat blocks) (Ok tt)
    /\ Forall2 (fun entry block => lint_summary.body entry = Run block (Ok tt) /\ block <> [])
         (filter flagged data) blocks.
Proof.
  intros H.
  destruct (Forall_choose
              (fun entry block => lint_summary.body entry = Run block (Ok tt) /\ block <> [])
              (filter flagged data)) as [blocks Hb].
  - pose proof (report_filter data H) as Hf. revert Hf. apply Forall_impl.
    intros e He. destruct (detail_body_file_entry e He) as (path & lines & _ & Hrun).
    eexists. split; [exact Hrun | discriminate].
  - exists blocks. split; [|exact Hb].
    unfold lint_summary.main. simpl negb. cbv iota. simpl load.
    rewrite bind_lift_ok. unfold lint_summary.entries. simpl iter. cbn [rbind].
    rewrite (entries_report data H), bind_lift_ok, bind_print.
    rewrite (for_each_done _ _ blocks); [reflexivity|].
    revert Hb. apply Forall2_impl. intros e b [Hrun _]. exact Hrun.
Qed.

(** C2. [lint_report_summary] never prints more than 20 per-entry lines
    after its header, whatever the report file holds. On a report its
    header gives the number of flagged entries and its lines are those of
    the first 20 flagged entries, one each; [lint_summary] prints the same
    header and then one block for each flagged entry, none left out. With
    25 flagged entries the first lists 20 and the second all 25. *)
Theorem compact_capped_detailed_uncapped :
  (forall f : report_file,
     printed (lint_report_summary.main f) = []
     \/ exists header lines,
          printed (lint_report_summary.main f) = header :: lines
          /\ (List.length lines <= 20)%nat)
  /\ (forall data : list value,
       is_report data = true ->
       exists lines blocks,
         lint_report_summary.main (Json (VList data))
         = Run (files_with_issues (List.length (filter flagged data)) :: lines) (Ok tt)
         /\ Forall2 (fun entry l => lint_report_summary.body entry = Run [l] (Ok tt))
              (firstn 20 (filter flagged data)) lines
         /\ List.length lines = Nat.min 20 (List.length (filter flagged data))
         /\ lint_summary.main (Json (VList data))
            = Run (files_with_issues (List.length (filter flagged data)) :: List.concat blocks)
                (Ok tt)
         /\ Forall2 (fun entry block =>
                       lint_summary.body entry = Run block (Ok tt) /\ block <> [])
              (filter flagged data) blocks
         /\ List.length blocks = List.length (filter flagged data)
         /\ (List.length (filter flagged data) = 25%nat ->
             List.length lines = 20%nat /\ List.length blocks = 25%nat)).
Proof.
  split.
  - intros f. unfold lint_report_summary.main.
    destruct f as [| |data]; simpl negb; cbv iota; try (left; reflexivity).
    simpl load. rewrite bind_lift_ok.
    destruct (lint_report_summary.entries data) as [es|e]; [|left; reflexivity].
    rewrite bind_lift_ok, bind_print. right. do 2 eexists. split; [reflexivity|].
    pose proof (for_each_printed_le lint_report_summary.body 1
                  (firstn lint_report_summary.cap es) compact_body_prints_one) as Hle.
    pose proof (firstn_le_length lint_report_summary.cap es) as Hcap.
    unfold lint_report_summary.cap in *. cbn [printed]. lia.
  - intros data H.
    destruct (compact_main_report data H) as (lines & Hc & Hlines).
    destruct (detail_main_report data H) as (blocks & Hd & Hblocks).
    assert (Hn : List.length lines = Nat.min 20 (List.length (filter flagged data))).
    { rewrite <- (Forall2_length Hlines). apply length_firstn. }
    assert (Hm : List.length blocks = List.length (filter flagged data)).
    { symmetry. exact (Forall2_length Hblocks). }
    exists lines, blocks. repeat split; try assumption; lia.
Qed.

Lemma compact_capped_detailed_uncapped_witness :
  is_report report_of_25 = true
  /\ List.length (printed (lint_report_summary.main (Json (VList report_of_25)))) = 21%nat
  /\ List.length (filter flagged report_of_25) = 25%nat
  /\ exists lines blocks,
       printed (lint_report_summary.main (Json (VList report_of_25)))
       = files_with_issues 25 :: lines
       /\ printed (lint_summary.main (Json (VList report_of_25)))
          = files_with_issues 25 :: List.concat blocks
       /\ List.length lines = 20%nat /\ List.length blocks = 25%nat.
Proof.
  split; [reflexivity|]. split; [reflexivity|]. split; [reflexivity|].
  destruct (proj2 compact_capped_detailed_uncapped report_of_25 eq_refl)
    as (lines & blocks & Hc & _ & _ & Hd & _ & _ & H25).
  exists lines, blocks. rewrite Hc, Hd. destruct (H25 eq_refl) as [Hl Hb].
  repeat split; assumption.
Defined.

(** ** More on the filter *)

Lemma has_issues_dict (d : dict) :
  has_issues (VDict d)
  = Ok (truthy (lookup_or d "errorCount" VNone) || truthy (lookup_or d "warningCount" VNone)).
Proof.
  unfold has_issues. rewrite !get_dict. cbn [rbind].
  destruct (truthy (lookup_or d "errorCount" VNone)); reflexivity.
Qed.

Lemma lookup_or_some (d : dict) (k : string) (dflt v : value) :
  lookup d k = Some v -> lookup_or d k dflt = v.
Proof. unfold lookup_or. now intros ->. Qed.

Lemma lookup_or_none (d : dict) (k : string) (dflt : value) :
  lookup d k = None -> lookup_or d k dflt = dflt.
Proof. unfold lookup_or. now intros ->. Qed.

(** An item of the input whose condition is true is in the result of a
    comprehension that ends normally, and nothing else is. *)
Lemma comprehension_keeps {A} (cond : value -> result bool) (elt : value -> result A)
    (xs : list value) (ys : list A) (x : value) :
  comprehension cond elt xs = Ok ys -> In x xs -> cond x = Ok true ->
  exists y, elt x = Ok y /\ In y ys.
Proof.
  revert ys. induction xs as [|x' xs IH]; intros ys Hc Hin Hx; [contradiction|].
  simpl in Hc. destruct Hin as [->|Hin].
  - rewrite Hx in Hc. cbn [rbind] in Hc.
    destruct (elt x) as [y|]; [|discriminate]. cbn [rbind] in Hc.
    destruct (comprehension cond elt xs); [|discriminate].
    injection Hc as <-. exists y. split; [reflexivity | now left].
  - destruct (cond x') as [[|]|]; cbn [rbind] in Hc; try discriminate.
    + destruct (elt x') as [y'|]; [|discriminate]. cbn [rbind] in Hc.
      destruct (comprehension cond elt xs) as [ys'|]; [|discriminate].
      injection Hc as <-. destruct (IH ys' eq_refl Hin Hx) as (y & Hy & Hin').
      exists y. split; [exact Hy | now right].
    + exact (IH ys Hc Hin Hx).
Qed.

Lemma comprehension_kept {A} (cond : value -> result bool) (elt : value -> result A)
    (xs : list value) (ys : list A) (y : A) :
  comprehension cond elt xs = Ok ys -> In y ys ->
  exists x, In x xs /\ cond x = Ok true /\ elt x = Ok y.
Proof.
  revert ys. induction xs as [|x' xs IH]; intros ys Hc Hin.
  - injection Hc as <-. contradiction.
  - simpl in Hc. destruct (cond x') as [[|]|] eqn:Hx; cbn [rbind] in Hc; try discriminate.
    + destruct (elt x') as [y'|] eqn:Hy; [|discriminate]. cbn [rbind] in Hc.
      destruct (comprehension cond elt xs) as [ys'|]; [|discriminate].
      injection Hc as <-. destruct Hin as [<-|Hin].
      * exists x'. repeat split; try assumption. now left.
      * destruct (IH ys' eq_refl Hin) as (x & ? & ? & ?).
        exists x. repeat split; try assumption. now right.
    + destruct (IH ys Hc Hin) as (x & ? & ? & ?).
      exists x. repeat split; try assumption. now right.
Qed.

Lemma entries_keep (data kept : list value) (entry : value) :
  comprehension has_issues (fun e => Ok e) data = Ok kept ->
  In entry data -> has_issues entry = Ok true -> In entry kept.
Proof.
  intros Hc Hin Hx.
  destruct (comprehension_keeps _ _ _ _ _ Hc Hin Hx) as (y & Hy & Hiny).
  now injection Hy as <-.
Qed.

Lemma entries_drop (data kept : list value) (entry : value) :
  comprehension has_issues (fun e => Ok e) data = Ok kept ->
  has_issues entry = Ok false -> ~ In entry kept.
Proof.
  intros Hc Hx Hin.
  destruct (comprehension_kept _ _ _ _ _ Hc Hin) as (x & _ & Hcond & Hy).
  injection Hy as ->. rewrite Hx in Hcond. discriminate.
Qed.

(** ** A missing report file *)

(** C3. When the report file does not exist, [lint_report_summary] and
    [lint_summary] print nothing and end with [SystemExit] carrying the
    message that the report was not found and that eslint is to be run
    with JSON output first; the exit status is 1. *)
Theorem summaries_exit_when_missing (f : report_file) :
  exists_ f = false ->
  lint_report_summary.main f = Run [] (Raise (SystemExit not_found))
  /\ lint_summary.main f = Run [] (Raise (SystemExit not_found))
  /\ exit_status (lint_report_summary.main f) = 1
  /\ exit_status (lint_summary.main f) = 1
  /\ stderr_message (lint_report_summary.main f)
     = Some "lint-report.json not found. Run eslint with JSON output first."
  /\ stderr_message (lint_summary.main f)
     = Some "lint-report.json not found. Run eslint with JSON output first.".
Proof.
  intros H. unfold lint_report_summary.main, lint_summary.main.
  rewrite H. repeat split.
Qed.

Lemma summaries_exit_when_missing_witness :
  exists_ Missing = false
  /\ stdout_text (lint_summary.main Missing) = EmptyString
  /\ exit_status (lint_summary.main Missing) = 1.
Proof.
  pose proof (summaries_exit_when_missing Missing eq_refl) as (_ & Hs & _ & He & _).
  split; [reflexivity|]. split; [now rewrite Hs | exact He].
Defined.

(** C4. When the report file does not exist, [lint_files] ends with the
    [FileNotFoundError] of [read_text]: it prints nothing and its exit status
    is 1, but it gives none of the message of the two other scripts. *)
Theorem lint_files_missing_report :
  lint_files.main Missing = Run [] (Raise FileNotFoundError)
  /\ exit_status (lint_files.main Missing) = 1
  /\ stderr_message (lint_files.main Missing) = None
  /\ stderr_message (lint_summary.main Missing) = Some not_found.
Proof. repeat split. Qed.

(** ** A report file that is not a report *)

Lemma has_issues_not_object (v : value) :
  is_object v = false -> has_issues v = Raise AttributeError.
Proof. destruct v; try discriminate; reflexivity. Qed.

(** An item that is not an object ends the comprehension with an exception:
    that of [.get] on the item, or an earlier one of the element expression. *)
Lemma comprehension_not_objects {A} (elt : value -> result A) (xs : list value) :
  forallb is_object xs = false ->
  exists e, comprehension has_issues elt xs = Raise e
            /\ (e = AttributeError \/ exists x, elt x = Raise e).
Proof.
  induction xs as [|x xs IH]; [discriminate|]. simpl. intros H.
  destruct (is_object x) eqn:Hx.
  - destruct (IH H) as (e & He & Hor). destruct x; try discriminate.
    rewrite has_issues_dict. cbn [rbind].
    destruct (truthy _ || truthy _).
    + destruct (elt (VDict fields)) as [y|e'] eqn:Hy; cbn [rbind].
      * rewrite He. exists e. split; [reflexivity | exact Hor].
      * exists e'. split; [reflexivity | right; now exists (VDict fields)].
    + exists e. split; assumption.
  - rewrite (has_issues_not_object x Hx). exists AttributeError. split; [reflexivity | now left].
Qed.

Lemma filter_step_malformed {A} (elt : value -> result A) (v : value) :
  array_of_objects v = false -> v <> VDict [] -> v <> VStr EmptyString ->
  exists e, (items <-? iter v ;; comprehension has_issues elt items) = Raise e
            /\ (e = TypeError \/ e = AttributeError \/ exists x, elt x = Raise e).
Proof.
  intros Hv Hd Hs. destruct v as [|b|n|s|items|d]; simpl iter; cbn [rbind].
  - exists TypeError. split; [reflexivity | now left].
  - exists TypeError. split; [reflexivity | now left].
  - exists TypeError. split; [reflexivity | now left].
  - destruct s as [|c s]; [now contradiction Hs|].
    exists AttributeError. split; [reflexivity | right; now left].
  - destruct (comprehension_not_objects elt items Hv) as (e & He & Hor).
    exists e. split; [exact He | right; exact Hor].
  - destruct d as [|[k x] d]; [now contradiction Hd|].
    exists AttributeError. split; [reflexivity | right; now left].
Qed.

(** C5, as the code has it. When the report file exists and [json.loads]
    rejects its text, or its top-level value is not an array of objects,
    each script ends with an uncaught exception, exit status 1, and prints
    nothing, unless the top-level value is the empty object or the empty
    string: on these two, which are not arrays, the three scripts end
    normally as on a report with no entry, [lint_files] printing nothing and
    the summaries the line [0 files with issues]. In the two summary
    scripts the exception is that of [json.loads], of the iteration or of
    [.get] on an item. *)
Theorem malformed_report_raises (f : report_file) :
  (malformed f = true ->
   f <> Json (VDict []) -> f <> Json (VStr EmptyString) ->
   (exists e, lint_files.main f = Run [] (Raise e))
   /\ (exists e, lint_report_summary.main f = Run [] (Raise e) /\ parse_or_shape_error e)
   /\ (exists e, lint_summary.main f = Run [] (Raise e) /\ parse_or_shape_error e)
   /\ exit_status (lint_files.main f) = 1
   /\ exit_status (lint_report_summary.main f) = 1
   /\ exit_status (lint_summary.main f) = 1)
  /\ (f = Json (VDict []) \/ f = Json (VStr EmptyString) ->
      malformed f = true
      /\ lint_files.main f = Run [] (Ok tt)
      /\ lint_report_summary.main f = Run ["0 files with issues"] (Ok tt)
      /\ lint_summary.main f = Run ["0 files with issues"] (Ok tt)
      /\ exit_status (lint_files.main f) = 0
      /\ exit_status (lint_report_summary.main f) = 0
      /\ exit_status (lint_summary.main f) = 0).
Proof.
  split.
  - intros Hm Hd Hs. unfold parse_or_shape_error.
    destruct f as [| |v]; [discriminate | |].
    + repeat split; try (eexists; split; [reflexivity | now left]).
      eexists; reflexivity.
    + simpl in Hm. apply negb_true_iff in Hm.
      assert (Hd' : v <> VDict []) by (intros ->; now apply Hd).
      assert (Hs' : v <> VStr EmptyString) by (intros ->; now apply Hs).
      destruct (filter_step_malformed (fun entry => getitem entry "filePath") v Hm Hd' Hs')
        as (e1 & He1 & _).
      destruct (filter_step_malformed (fun entry : value => Ok entry) v Hm Hd' Hs')
        as (e2 & He2 & Hor).
      assert (Hshape : e2 = JSONDecodeError \/ e2 = TypeError \/ e2 = AttributeError).
      { destruct Hor as [->|[->|[x Hx]]]; [right; now left | right; now right | discriminate]. }
      unfold lint_files.main, lint_report_summary.main, lint_summary.main.
      unfold lint_files.files, lint_report_summary.entries, lint_summary.entries.
      simpl negb. cbv iota. simpl load. rewrite !bind_lift_ok, He1, He2.
      repeat split; try (exists e2; split; [reflexivity | exact Hshape]).
      exists e1; reflexivity.
  - intros [-> | ->]; repeat split.
Qed.

Lemma malformed_report_raises_witness :
  malformed (Json (VList [VDict [("filePath", VStr "a.ts")]; VInt 5])) = true
  /\ (exists e, lint_summary.main (Json (VList [VDict [("filePath", VStr "a.ts")]; VInt 5]))
                = Run [] (Raise e))
  /\ (exists e, lint_report_summary.main NotJson = Run [] (Raise e))
  /\ lint_summary.main (Json (VStr EmptyString)) = Run ["0 files with issues"] (Ok tt).
Proof.
  split; [reflexivity|]. split; [|split].
  - destruct (proj1 (malformed_report_raises
                       (Json (VList [VDict [("filePath", VStr "a.ts")]; VInt 5]))) eq_refl)
      as (_ & _ & (e & He & _) & _); try discriminate.
    exists e. exact He.
  - destruct (proj1 (malformed_report_raises NotJson) eq_refl)
      as (_ & (e & He & _) & _); try discriminate.
    exists e. exact He.
  - destruct (proj2 (malformed_report_raises (Json (VStr EmptyString)))
                (or_intror eq_refl)) as (_ & _ & _ & Hs & _).
    exact Hs.
Defined.

(** The claim C5 as it is stated fails on the empty object and on the empty
    string: the file exists, its top-level value is not an array, and the
    three scripts take it for a report with no entry and end normally. *)
Lemma empty_object_read_as_empty_report :
  malformed (Json (VDict [])) = true
  /\ lint_files.main (Json (VDict [])) = Run [] (Ok tt)
  /\ lint_report_summary.main (Json (VDict [])) = Run ["0 files with issues"] (Ok tt)
  /\ lint_summary.main (Json (VDict [])) = Run ["0 files with issues"] (Ok tt)
  /\ exit_status (lint_report_summary.main (Json (VDict []))) = 0
  /\ ~ (forall f, malformed f = true ->
                  exists e, ending (lint_report_summary.main f) = Raise e)
  /\ malformed (Json (VStr EmptyString)) = true
  /\ lint_files.main (Json (VStr EmptyString)) = Run [] (Ok tt)
  /\ lint_report_summary.main (Json (VStr EmptyString)) = Run ["0 files with issues"] (Ok tt)
  /\ lint_summary.main (Json (VStr EmptyString)) = Run ["0 files with issues"] (Ok tt)
  /\ exit_status (lint_summary.main (Json (VStr EmptyString))) = 0.
Proof.
  split; [reflexivity|]. split; [reflexivity|]. split; [reflexivity|].
  split; [reflexivity|]. split; [reflexivity|]. split; [|repeat split].
  intros H. destruct (H (Json (VDict [])) eq_refl) as [e He]. discriminate.
Qed.

(** ** Entries and messages with missing fields *)

Lemma compact_body_dict (d : dict) (path : value) (n : Z) :
  lookup d "filePath" = Some path ->
  len (lookup_or d "messages" (VList [])) = Ok n ->
  lint_report_summary.body (VDict d)
  = Run [str path ++ " - " ++ str_of_Z n ++ " messages"] (Ok tt).
Proof.
  intros Hp Hn. unfold lint_report_summary.body, getitem.
  rewrite get_dict, bind_lift_ok, Hn, bind_lift_ok, Hp, bind_lift_ok. reflexivity.
Qed.

Lemma detail_body_dict (d : dict) (path : value) (msgs : list value) (lines : list string) :
  lookup d "filePath" = Some path ->
  iter (lookup_or d "messages" (VList [])) = Ok msgs ->
  for_each msgs lint_summary.message_line = Run lines (Ok tt) ->
  lint_summary.body (VDict d) = Run (String newline_char (str path) :: lines) (Ok tt).
Proof.
  intros Hp Hm Hl. unfold lint_summary.body, getitem.
  rewrite Hp, bind_lift_ok, bind_print, get_dict, bind_lift_ok, Hm, bind_lift_ok, Hl.
  reflexivity.
Qed.

Lemma detail_main_entries (data : value) (kept : list value) :
  lint_summary.entries data = Ok kept ->
  lint_summary.main (Json data)
  = Run (files_with_issues (List.length kept) :: printed (for_each kept lint_summary.body))
        (ending (for_each kept lint_summary.body)).
Proof.
  intros H. unfold lint_summary.main. simpl negb. cbv iota. simpl load.
  rewrite bind_lift_ok, H, bind_lift_ok, bind_print. reflexivity.
Qed.

Lemma message_lines_each (msgs : list value) :
  forallb is_object msgs = true ->
  exists lines,
    for_each msgs lint_summary.message_line = Run lines (Ok tt)
    /\ Forall2 (fun msg l => lint_summary.message_line msg = Run [l] (Ok tt)) msgs lines.
Proof.
  intros H. rewrite forallb_forall in H.
  destruct (Forall_choose
              (fun m l => lint_summary.message_line m = Run [l] (Ok tt)) msgs)
    as [lines Hl].
  - apply Forall_forall. intros m Hm. specialize (H m Hm).
    destruct m; try discriminate. eexists. apply message_line_dict.
  - exists lines. split; [now apply for_each_lines | exact Hl].
Qed.

Lemma Forall2_In_l {A B} (R : A -> B -> Prop) (xs : list A) (ys : list B) (x : A) :
  Forall2 R xs ys -> In x xs -> exists y, In y ys /\ R x y.
Proof.
  induction 1 as [|x' y' xs ys Hxy _ IH]; intros Hin; [contradiction|].
  destruct Hin as [->|Hin].
  - exists y'. split; [now left | exact Hxy].
  - destruct (IH Hin) as (y & Hy & HR). exists y. split; [now right | exact HR].
Qed.

(** On a report, [lint_summary] ends normally and the line of every message
    of every flagged entry is among the lines it prints. *)
Lemma detail_report_prints_message (data : list value) (owner : dict) (msgs : list value)
    (msg : value) (line : string) :
  is_report data = true ->
  In (VDict owner) data ->
  flagged (VDict owner) = true ->
  lookup owner "messages" = Some (VList msgs) ->
  In msg msgs ->
  lint_summary.message_line msg = Run [line] (Ok tt) ->
  ending (lint_summary.main (Json (VList data))) = Ok tt
  /\ In line (printed (lint_summary.main (Json (VList data)))).
Proof.
  intros Hrep Hin Hflag Hmsgs Hmsg Hline.
  destruct (detail_main_report data Hrep) as (blocks & Hmain & HF).
  rewrite Hmain. split; [reflexivity|]. right. apply in_concat.
  assert (Hkept : In (VDict owner) (filter flagged data)) by (apply filter_In; now split).
  destruct (Forall2_In_l _ _ _ _ HF Hkept) as (block & Hblock & Hbody & _).
  exists block. split; [exact Hblock|].
  assert (Hentry : is_file_entry (VDict owner) = true).
  { unfold is_report in Hrep. rewrite forallb_forall in Hrep. apply Hrep, Hin. }
  destruct (file_entry_fields _ Hentry) as (d & path & Hd & Hp & _ & _ & Hm).
  injection Hd as <-. rewrite Hmsgs in Hm.
  destruct Hm as [Hm | (msgs' & Hm & Hobj)]; [discriminate|]. injection Hm as <-.
  destruct (message_lines_each msgs Hobj) as (lines & Hrun & HL).
  rewrite (detail_body_dict owner (VStr path) msgs lines Hp) in Hbody;
    [| unfold lookup_or; now rewrite Hmsgs | exact Hrun].
  injection Hbody as <-. right.
  destruct (Forall2_In_l _ _ _ _ HL Hmsg) as (l & Hl & Hrun').
  rewrite Hline in Hrun'. now injection Hrun' as <-.
Qed.

(** [lint_summary] on a report of one kept entry that has one message. *)
Lemma detail_single_message (owner : dict) (path msg : value) (line : string) :
  lookup owner "filePath" = Some path ->
  has_issues (VDict owner) = Ok true ->
  lookup owner "messages" = Some (VList [msg]) ->
  lint_summary.message_line msg = Run [line] (Ok tt) ->
  lint_summary.main (Json (VList [VDict owner]))
  = Run ["1 files with issues"; String newline_char (str path); line] (Ok tt).
Proof.
  intros Hp Hkeep Hmsgs Hline.
  rewrite (detail_main_entries (VList [VDict owner]) [VDict owner]).
  - cbn [for_each].
    rewrite (detail_body_dict owner path [msg] [line] Hp).
    + reflexivity.
    + unfold lookup_or. now rewrite Hmsgs.
    + cbn [for_each]. rewrite Hline. reflexivity.
  - unfold lint_summary.entries. simpl iter. cbn [rbind comprehension].
    rewrite Hkeep. reflexivity.
Qed.

(** C6. An entry with a positive error count (or a positive warning count)
    whose [messages] is empty or absent is kept by the filter;
    [lint_report_summary] prints it with 0 messages, and [lint_summary]
    prints its [filePath] line with no message line under it. *)
Theorem flagged_entry_without_messages (d : dict) (n : Z) (path : value) :
  lookup d "errorCount" = Some (VInt n) \/ lookup d "warningCount" = Some (VInt n) ->
  0 < n ->
  lookup d "filePath" = Some path ->
  lookup d "messages" = None \/ lookup d "messages" = Some (VList []) ->
  has_issues (VDict d) = Ok true
  /\ (forall data kept,
        In (VDict d) data ->
        lint_report_summary.entries (VList data) = Ok kept
        \/ lint_summary.entries (VList data) = Ok kept ->
        In (VDict d) kept)
  /\ lint_files.main (Json (VList [VDict d])) = Run [str path] (Ok tt)
  /\ lint_report_summary.body (VDict d) = Run [str path ++ " - 0 messages"] (Ok tt)
  /\ lint_report_summary.main (Json (VList [VDict d]))
     = Run ["1 files with issues"; str path ++ " - 0 messages"] (Ok tt)
  /\ lint_summary.body (VDict d) = Run [String newline_char (str path)] (Ok tt)
  /\ lint_summary.main (Json (VList [VDict d]))
     = Run ["1 files with issues"; String newline_char (str path)] (Ok tt).
Proof.
  intros Hcount Hn Hp Hm.
  assert (Hkeep : has_issues (VDict d) = Ok true).
  { rewrite has_issues_dict. f_equal. apply orb_true_iff.
    destruct Hcount as [H|H]; [left|right];
      rewrite (lookup_or_some _ _ _ _ H); simpl;
      destruct (Z.eqb_spec n 0); [lia | reflexivity | lia | reflexivity]. }
  assert (Hmsgs : lookup_or d "messages" (VList []) = VList []).
  { destruct Hm as [H|H]; [now apply lookup_or_none | now apply lookup_or_some]. }
  assert (Hc : lint_report_summary.body (VDict d)
               = Run [str path ++ " - 0 messages"] (Ok tt)).
  { apply (compact_body_dict d path 0 Hp). now rewrite Hmsgs. }
  assert (Hb : lint_summary.body (VDict d) = Run [String newline_char (str path)] (Ok tt)).
  { apply (detail_body_dict d path [] [] Hp); [now rewrite Hmsgs | reflexivity]. }
  split; [exact Hkeep|]. split; [|repeat split].
  - intros data kept Hin [H|H]; apply (entries_keep data kept (VDict d) H Hin Hkeep).
  - unfold lint_files.main, lint_files.files. simpl load. rewrite bind_lift_ok.
    simpl iter. cbn [rbind comprehension]. rewrite Hkeep. cbn [rbind getitem].
    rewrite Hp. reflexivity.
  - exact Hc.
  - unfold lint_report_summary.main, lint_report_summary.entries.
    simpl negb. cbv iota. simpl load. rewrite bind_lift_ok.
    simpl iter. cbn [rbind comprehension]. rewrite Hkeep. cbn [rbind].
    rewrite bind_lift_ok, bind_print. cbn [firstn lint_report_summary.cap for_each].
    rewrite Hc. reflexivity.
  - exact Hb.
  - unfold lint_summary.main, lint_summary.entries.
    simpl negb. cbv iota. simpl load. rewrite bind_lift_ok.
    simpl iter. cbn [rbind comprehension]. rewrite Hkeep. cbn [rbind].
    rewrite bind_lift_ok, bind_print. cbn [for_each].
    rewrite Hb. reflexivity.
Qed.

Lemma flagged_entry_without_messages_witness :
  lint_report_summary.main (Json (VList [VDict [("filePath", VStr "a.ts"); ("errorCount", VInt 1)]]))
  = Run ["1 files with issues"; "a.ts - 0 messages"] (Ok tt)
  /\ lint_summary.main
       (Json (VList [VDict [("filePath", VStr "b.ts"); ("warningCount", VInt 4);
                            ("messages", VList [])]]))
     = Run ["1 files with issues"; String newline_char "b.ts"] (Ok tt).
Proof.
  split.
  - apply (flagged_entry_without_messages
             [("filePath", VStr "a.ts"); ("errorCount", VInt 1)] 1 (VStr "a.ts"));
      [left; reflexivity | lia | reflexivity | left; reflexivity].
  - apply (flagged_entry_without_messages
             [("filePath", VStr "b.ts"); ("warningCount", VInt 4); ("messages", VList [])]
             4 (VStr "b.ts"));
      [right; reflexivity | lia | reflexivity | right; reflexivity].
Defined.

(** C7. In [lint_summary] a message without a [ruleId] key is shown with
    [<no-rule>], one without a [message] key with [<no-message>], one without
    a [line] or a [column] key with 0 at that place, so [@0:0] without both:
    this is the line that the message loop builds, the run of the script on
    a report prints it for every message of every flagged entry, and on a
    report of one kept entry with that one message it is the third line,
    after the header and the path. An entry with neither an [errorCount] nor
    a [warningCount] key is dropped by the filter of the three scripts. *)
Theorem missing_field_defaults (msg entry : dict) :
  (lookup msg "ruleId" = None ->
   lint_summary.message_line (VDict msg)
   = Run ["  <no-rule>: " ++ str (lookup_or msg "message" (VStr "<no-message>")) ++ " @"
          ++ str (lookup_or msg "line" (VInt 0)) ++ ":"
          ++ str (lookup_or msg "column" (VInt 0))] (Ok tt))
  /\ (lookup msg "message" = None ->
      lint_summary.message_line (VDict msg)
      = Run ["  " ++ str (lookup_or msg "ruleId" (VStr "<no-rule>")) ++ ": <no-message> @"
             ++ str (lookup_or msg "line" (VInt 0)) ++ ":"
             ++ str (lookup_or msg "column" (VInt 0))] (Ok tt))
  /\ (lookup msg "line" = None -> lookup msg "column" = None ->
      lint_summary.message_line (VDict msg)
      = Run ["  " ++ str (lookup_or msg "ruleId" (VStr "<no-rule>")) ++ ": "
             ++ str (lookup_or msg "message" (VStr "<no-message>")) ++ " @0:0"] (Ok tt))
  /\ (lookup entry "errorCount" = None -> lookup entry "warningCount" = None ->
      has_issues (VDict entry) = Ok false
      /\ lint_files.files (VList [VDict entry]) = Ok []
      /\ forall data kept,
           lint_report_summary.entries (VList data) = Ok kept
           \/ lint_summary.entries (VList data) = Ok kept ->
           ~ In (VDict entry) kept)
  /\ (forall (data : list value) (owner : dict) (msgs : list value),
        is_report data = true ->
        In (VDict owner) data ->
        flagged (VDict owner) = true ->
        lookup owner "messages" = Some (VList msgs) ->
        In (VDict msg) msgs ->
        ending (lint_summary.main (Json (VList data))) = Ok tt
        /\ (lookup msg "ruleId" = None ->
            In ("  <no-rule>: " ++ str (lookup_or msg "message" (VStr "<no-message>")) ++ " @"
                ++ str (lookup_or msg "line" (VInt 0)) ++ ":"
                ++ str (lookup_or msg "column" (VInt 0)))
               (printed (lint_summary.main (Json (VList data)))))
        /\ (lookup msg "message" = None ->
            In ("  " ++ str (lookup_or msg "ruleId" (VStr "<no-rule>")) ++ ": <no-message> @"
                ++ str (lookup_or msg "line" (VInt 0)) ++ ":"
                ++ str (lookup_or msg "column" (VInt 0)))
               (printed (lint_summary.main (Json (VList data)))))
        /\ (lookup msg "line" = None -> lookup msg "column" = None ->
            In ("  " ++ str (lookup_or msg "ruleId" (VStr "<no-rule>")) ++ ": "
                ++ str (lookup_or msg "message" (VStr "<no-message>")) ++ " @0:0")
               (printed (lint_summary.main (Json (VList data))))))
  /\ (forall (owner : dict) (path : value),
        lookup owner "filePath" = Some path ->
        has_issues (VDict owner) = Ok true ->
        lookup owner "messages" = Some (VList [VDict msg]) ->
        (lookup msg "ruleId" = None ->
         lint_summary.main (Json (VList [VDict owner]))
         = Run ["1 files with issues"; String newline_char (str path);
                "  <no-rule>: " ++ str (lookup_or msg "message" (VStr "<no-message>")) ++ " @"
                ++ str (lookup_or msg "line" (VInt 0)) ++ ":"
                ++ str (lookup_or msg "column" (VInt 0))] (Ok tt))
        /\ (lookup msg "message" = None ->
            lint_summary.main (Json (VList [VDict owner]))
            = Run ["1 files with issues"; String newline_char (str path);
                   "  " ++ str (lookup_or msg "ruleId" (VStr "<no-rule>")) ++ ": <no-message> @"
                   ++ str (lookup_or msg "line" (VInt 0)) ++ ":"
                   ++ str (lookup_or msg "column" (VInt 0))] (Ok tt))
        /\ (lookup msg "line" = None -> lookup msg "column" = None ->
            lint_summary.main (Json (VList [VDict owner]))
            = Run ["1 files with issues"; String newline_char (str path);
                   "  " ++ str (lookup_or msg "ruleId" (VStr "<no-rule>")) ++ ": "
                   ++ str (lookup_or msg "message" (VStr "<no-message>")) ++ " @0:0"] (Ok tt))).
Proof.
  split; [|split; [|split; [|split; [|split]]]].
  - intros H. rewrite message_line_dict, (lookup_or_none _ _ _ H). reflexivity.
  - intros H. rewrite message_line_dict, (lookup_or_none _ _ _ H). reflexivity.
  - intros Hl Hc.
    rewrite message_line_dict, (lookup_or_none _ _ _ Hl), (lookup_or_none _ _ _ Hc).
    reflexivity.
  - intros He Hw.
    assert (Hdrop : has_issues (VDict entry) = Ok false).
    { rewrite has_issues_dict, (lookup_or_none _ _ _ He), (lookup_or_none _ _ _ Hw).
      reflexivity. }
    split; [exact Hdrop|]. split.
    + unfold lint_files.files. simpl iter. cbn [rbind comprehension].
      rewrite Hdrop. reflexivity.
    + intros data kept [Hk|Hk]; exact (entries_drop data kept (VDict entry) Hk Hdrop).
  - intros data owner msgs Hrep Hin Hflag Hmsgs Hmsg.
    destruct (detail_report_prints_message data owner msgs (VDict msg) _
                Hrep Hin Hflag Hmsgs Hmsg (message_line_dict msg)) as [Hend Hline].
    split; [exact Hend|]. split; [|split].
    + intros H. rewrite (lookup_or_none _ _ _ H) in Hline. exact Hline.
    + intros H. rewrite (lookup_or_none _ _ _ H) in Hline. exact Hline.
    + intros Hl Hc.
      rewrite (lookup_or_none _ _ _ Hl), (lookup_or_none _ _ _ Hc) in Hline. exact Hline.
  - intros owner path Hp Hkeep Hmsgs.
    pose proof (detail_single_message owner path (VDict msg) _
                  Hp Hkeep Hmsgs (message_line_dict msg)) as Hmain.
    split; [|split].
    + intros H. rewrite (lookup_or_none _ _ _ H) in Hmain. exact Hmain.
    + intros H. rewrite (lookup_or_none _ _ _ H) in Hmain. exact Hmain.
    + intros Hl Hc.
      rewrite (lookup_or_none _ _ _ Hl), (lookup_or_none _ _ _ Hc) in Hmain. exact Hmain.
Qed.

Lemma missing_field_defaults_witness :
  lint_summary.main
    (Json (VList [VDict [("filePath", VStr "a.ts"); ("errorCount", VInt 1);
                         ("messages", VList [VDict []])]]))
  = Run ["1 files with issues"; String newline_char "a.ts";
         "  <no-rule>: <no-message> @0:0"] (Ok tt)
  /\ In "  <no-rule>: Parsing error @7:0"
       (printed (lint_summary.main (Json (VList parse_error_report))))
  /\ lint_summary.message_line (VDict [("message", VStr "Parsing error"); ("line", VInt 7)])
     = Run ["  <no-rule>: Parsing error @7:0"] (Ok tt)
  /\ has_issues (VDict [("filePath", VStr "clean.ts"); ("messages", VList [])]) = Ok false.
Proof.
  split; [|split; [|split]].
  - destruct (missing_field_defaults [] []) as (_ & _ & _ & _ & _ & Hone).
    exact (proj1 (Hone [("filePath", VStr "a.ts"); ("errorCount", VInt 1);
                        ("messages", VList [VDict []])] (VStr "a.ts")
                    eq_refl eq_refl eq_refl) eq_refl).
  - destruct (missing_field_defaults parse_error_message [])
      as (_ & _ & _ & _ & Hany & _).
    refine (proj1 (proj2 (Hany parse_error_report parse_error_entry
                            [VDict [("ruleId", VStr "semi")]; VDict parse_error_message]
                            eq_refl _ eq_refl eq_refl _)) eq_refl).
    + right. left. reflexivity.
    + right. left. reflexivity.
  - exact (proj1 (missing_field_defaults
                    [("message", VStr "Parsing error"); ("line", VInt 7)] []) eq_refl).
  - destruct (missing_field_defaults []
                [("filePath", VStr "clean.ts"); ("messages", VList [])])
      as (_ & _ & _ & Hdrop & _).
    exact (proj1 (Hdrop eq_refl eq_refl)).
Defined.

(** C9. In [lint_summary] a [ruleId] or a [message] key that is present is
    shown with the [str] of its value, whatever it is, and so as [None] when
    the value is JSON null: [<no-rule>] and [<no-message>] stand in only for a
    key that the object does not have. This is the line that the message
    loop builds; the run of the script on a report prints it for every
    message of every flagged entry, and on a report of one kept entry with
    that one message it is the third line, after the header and the path. *)
Theorem null_field_shown_as_None (msg : dict) :
  (forall v, lookup msg "ruleId" = Some v ->
     lint_summary.message_line (VDict msg)
     = Run ["  " ++ str v ++ ": " ++ str (lookup_or msg "message" (VStr "<no-message>"))
            ++ " @" ++ str (lookup_or msg "line" (VInt 0)) ++ ":"
            ++ str (lookup_or msg "column" (VInt 0))] (Ok tt))
  /\ (forall v, lookup msg "message" = Some v ->
        lint_summary.message_line (VDict msg)
        = Run ["  " ++ str (lookup_or msg "ruleId" (VStr "<no-rule>")) ++ ": " ++ str v
               ++ " @" ++ str (lookup_or msg "line" (VInt 0)) ++ ":"
               ++ str (lookup_or msg "column" (VInt 0))] (Ok tt))
  /\ (lookup msg "ruleId" = Some VNone ->
      lint_summary.message_line (VDict msg)
      = Run ["  None: " ++ str (lookup_or msg "message" (VStr "<no-message>"))
             ++ " @" ++ str (lookup_or msg "line" (VInt 0)) ++ ":"
             ++ str (lookup_or msg "column" (VInt 0))] (Ok tt))
  /\ (lookup msg "message" = Some VNone ->
      lint_summary.message_line (VDict msg)
      = Run ["  " ++ str (lookup_or msg "ruleId" (VStr "<no-rule>")) ++ ": None"
             ++ " @" ++ str (lookup_or msg "line" (VInt 0)) ++ ":"
             ++ str (lookup_or msg "column" (VInt 0))] (Ok tt))
  /\ (forall (data : list value) (owner : dict) (msgs : list value),
        is_report data = true ->
        In (VDict owner) data ->
        flagged (VDict owner) = true ->
        lookup owner "messages" = Some (VList msgs) ->
        In (VDict msg) msgs ->
        ending (lint_summary.main (Json (VList data))) = Ok tt
        /\ (forall v, lookup msg "ruleId" = Some v ->
            In ("  " ++ str v ++ ": " ++ str (lookup_or msg "message" (VStr "<no-message>")) ++ " @"
                ++ str (lookup_or msg "line" (VInt 0)) ++ ":"
                ++ str (lookup_or msg "column" (VInt 0)))
               (printed (lint_summary.main (Json (VList data)))))
        /\ (forall v, lookup msg "message" = Some v ->
            In ("  " ++ str (lookup_or msg "ruleId" (VStr "<no-rule>")) ++ ": " ++ str v ++ " @"
                ++ str (lookup_or msg "line" (VInt 0)) ++ ":"
                ++ str (lookup_or msg "column" (VInt 0)))
               (printed (lint_summary.main (Json (VList data)))))
        /\ (lookup msg "ruleId" = Some VNone ->
            In ("  None: " ++ str (lookup_or msg "message" (VStr "<no-message>")) ++ " @"
                ++ str (lookup_or msg "line" (VInt 0)) ++ ":"
                ++ str (lookup_or msg "column" (VInt 0)))
               (printed (lint_summary.main (Json (VList data)))))
        /\ (lookup msg "message" = Some VNone ->
            In ("  " ++ str (lookup_or msg "ruleId" (VStr "<no-rule>")) ++ ": None" ++ " @"
                ++ str (lookup_or msg "line" (VInt 0)) ++ ":"
                ++ str (lookup_or msg "column" (VInt 0)))
               (printed (lint_summary.main (Json (VList data))))))
  /\ (forall (owner : dict) (path : value),
        lookup owner "filePath" = Some path ->
        has_issues (VDict owner) = Ok true ->
        lookup owner "messages" = Some (VList [VDict msg]) ->
        (forall v, lookup msg "ruleId" = Some v ->
            lint_summary.main (Json (VList [VDict owner]))
            = Run ["1 files with issues"; String newline_char (str path);
                "  " ++ str v ++ ": " ++ str (lookup_or msg "message" (VStr "<no-message>")) ++ " @"
                ++ str (lookup_or msg "line" (VInt 0)) ++ ":"
                ++ str (lookup_or msg "column" (VInt 0))] (Ok tt))
        /\ (forall v, lookup msg "message" = Some v ->
            lint_summary.main (Json (VList [VDict owner]))
            = Run ["1 files with issues"; String newline_char (str path);
                "  " ++ str (lookup_or msg "ruleId" (VStr "<no-rule>")) ++ ": " ++ str v ++ " @"
                ++ str (lookup_or msg "line" (VInt 0)) ++ ":"
                ++ str (lookup_or msg "column" (VInt 0))] (Ok tt))
        /\ (lookup msg "ruleId" = Some VNone ->
            lint_summary.main (Json (VList [VDict owner]))
            = Run ["1 files with issues"; String newline_char (str path);
                "  None: " ++ str (lookup_or msg "message" (VStr "<no-message>")) ++ " @"
                ++ str (lookup_or msg "line" (VInt 0)) ++ ":"
                ++ str (lookup_or msg "column" (VInt 0))] (Ok tt))
        /\ (lookup msg "message" = Some VNone ->
            lint_summary.main (Json (VList [VDict owner]))
            = Run ["1 files with issues"; String newline_char (str path);
                "  " ++ str (lookup_or msg "ruleId" (VStr "<no-rule>")) ++ ": None" ++ " @"
                ++ str (lookup_or msg "line" (VInt 0)) ++ ":"
                ++ str (lookup_or msg "column" (VInt 0))] (Ok tt))).
Proof.
  split; [|split; [|split; [|split; [|split]]]].
  - intros v H. rewrite message_line_dict, (lookup_or_some _ _ _ _ H). reflexivity.
  - intros v H. rewrite message_line_dict, (lookup_or_some _ _ _ _ H). reflexivity.
  - intros H. rewrite message_line_dict, (lookup_or_some _ _ _ _ H). reflexivity.
  - intros H. rewrite message_line_dict, (lookup_or_some _ _ _ _ H). reflexivity.
  - intros data owner msgs Hrep Hin Hflag Hmsgs Hmsg.
    destruct (detail_report_prints_message data owner msgs (VDict msg) _
                Hrep Hin Hflag Hmsgs Hmsg (message_line_dict msg)) as [Hend Hline].
    split; [exact Hend|]. split; [|split; [|split]].
    + intros v H. rewrite (lookup_or_some _ _ _ _ H) in Hline. exact Hline.
    + intros v H. rewrite (lookup_or_some _ _ _ _ H) in Hline. exact Hline.
    + intros H. rewrite (lookup_or_some _ _ _ _ H) in Hline. exact Hline.
    + intros H. rewrite (lookup_or_some _ _ _ _ H) in Hline. exact Hline.
  - intros owner path Hp Hkeep Hmsgs.
    pose proof (detail_single_message owner path (VDict msg) _
                  Hp Hkeep Hmsgs (message_line_dict msg)) as Hmain.
    split; [|split; [|split]].
    + intros v H. rewrite (lookup_or_some _ _ _ _ H) in Hmain. exact Hmain.
    + intros v H. rewrite (lookup_or_some _ _ _ _ H) in Hmain. exact Hmain.
    + intros H. rewrite (lookup_or_some _ _ _ _ H) in Hmain. exact Hmain.
    + intros H. rewrite (lookup_or_some _ _ _ _ H) in Hmain. exact Hmain.
Qed.

Lemma null_field_shown_as_None_witness :
  lint_summary.main (Json (VList [VDict null_rule_entry]))
  = Run ["1 files with issues"; String newline_char "src/app.ts";
         "  None: Parsing error: unexpected token @12:4"] (Ok tt)
  /\ In "  semi: None @0:0"
       (printed (lint_summary.main
                   (Json (VList [VDict null_message_entry; VDict null_rule_entry]))))
  /\ lint_summary.message_line (VDict [("ruleId", VStr "semi"); ("message", VNone)])
     = Run ["  semi: None @0:0"] (Ok tt).
Proof.
  split; [|split].
  - destruct (null_field_shown_as_None null_rule_message) as (_ & _ & _ & _ & _ & Hone).
    exact (proj1 (proj2 (proj2 (Hone null_rule_entry (VStr "src/app.ts")
                                  eq_refl eq_refl eq_refl))) eq_refl).
  - destruct (null_field_shown_as_None [("ruleId", VStr "semi"); ("message", VNone)])
      as (_ & _ & _ & _ & Hany & _).
    refine (proj2 (proj2 (proj2 (proj2
              (Hany [VDict null_message_entry; VDict null_rule_entry] null_message_entry
                 [VDict [("ruleId", VStr "semi"); ("message", VNone)]]
                 eq_refl _ eq_refl eq_refl _)))) eq_refl).
    + left. reflexivity.
    + left. reflexivity.
  - destruct (null_field_shown_as_None [("ruleId", VStr "semi"); ("message", VNone)])
      as (_ & _ & _ & Hmsg & _).
    exact (Hmsg eq_refl).
Defined.

(** C10. An entry whose [errorCount] or [warningCount] has a true value of
    any kind is kept by the filter of the three scripts, since the filter
    takes the truth value of the field and does not compare it with 0; so
    is an entry with a count of -1, which is not flagged in the sense of
    the data model. *)
Theorem truthy_count_is_kept (d : dict) (v : value) :
  lookup d "errorCount" = Some v \/ lookup d "warningCount" = Some v ->
  truthy v = true ->
  has_issues (VDict d) = Ok true
  /\ (forall data kept,
        In (VDict d) data ->
        lint_report_summary.entries (VList data) = Ok kept
        \/ lint_summary.entries (VList data) = Ok kept ->
        In (VDict d) kept)
  /\ (forall data paths,
        In (VDict d) data ->
        lint_files.files (VList data) = Ok paths ->
        exists path, lookup d "filePath" = Some path /\ In path paths)
  /\ (v = VInt (-1) -> lookup d "errorCount" = Some v -> lookup d "warningCount" = None ->
      flagged (VDict d) = false).
Proof.
  intros Hv Ht.
  assert (Hkeep : has_issues (VDict d) = Ok true).
  { rewrite has_issues_dict. f_equal. apply orb_true_iff.
    destruct Hv as [H|H]; [left|right]; now rewrite (lookup_or_some _ _ _ _ H). }
  split; [exact Hkeep|]. split; [|split].
  - intros data kept Hin [H|H]; apply (entries_keep data kept (VDict d) H Hin Hkeep).
  - intros data paths Hin Hf. unfold lint_files.files in Hf. simpl iter in Hf.
    cbn [rbind] in Hf.
    destruct (comprehension_keeps _ _ _ _ _ Hf Hin Hkeep) as (path & Hp & Hin').
    exists path. split; [|exact Hin'].
    unfold getitem in Hp. destruct (lookup d "filePath"); [now injection Hp as -> | discriminate].
  - intros -> He Hw. unfold flagged, count_of. rewrite He, Hw. reflexivity.
Qed.

Lemma truthy_count_is_kept_witness :
  has_issues (VDict [("filePath", VStr "a.ts"); ("errorCount", VInt (-1))]) = Ok true
  /\ flagged (VDict [("filePath", VStr "a.ts"); ("errorCount", VInt (-1))]) = false
  /\ lint_files.main (Json (VList [VDict [("filePath", VStr "a.ts"); ("errorCount", VInt (-1))]]))
     = Run ["a.ts"] (Ok tt).
Proof.
  pose proof (truthy_count_is_kept
                [("filePath", VStr "a.ts"); ("errorCount", VInt (-1))] (VInt (-1))
                (or_introl eq_refl) eq_refl) as (Hk & _ & _ & Hf).
  split; [exact Hk|]. split; [exact (Hf eq_refl eq_refl eq_refl) | reflexivity].
Defined.

(** ** The one-entry report of scenario B *)

(** C8. On the one-entry report of scenario B, [lint_files] prints the line
    [a.ts]; [lint_report_summary] prints [1 files with issues] and then
    [a.ts - 1 messages]; [lint_summary] prints [1 files with issues], an
    empty line, [a.ts] and then the message line with the rule, the text
    and [@3:5]. Each of them ends normally. *)
Theorem scenario_b_output :
  lint_files.main scenario_b = Run ["a.ts"] (Ok tt)
  /\ stdout_lines (lint_files.main scenario_b) = ["a.ts"]
  /\ lint_report_summary.main scenario_b
     = Run ["1 files with issues"; "a.ts - 1 messages"] (Ok tt)
  /\ stdout_lines (lint_report_summary.main scenario_b)
     = ["1 files with issues"; "a.ts - 1 messages"]
  /\ lint_summary.main scenario_b
     = Run ["1 files with issues"; String newline_char "a.ts";
            "  no-unused-vars: x is unused @3:5"] (Ok tt)
  /\ stdout_lines (lint_summary.main scenario_b)
     = ["1 files with issues"; EmptyString; "a.ts"; "  no-unused-vars: x is unused @3:5"].
Proof. repeat split. Qed.

(** ** The filter on any list *)

Lemma has_issues_keeps (v : value) : is_object v = true -> has_issues v = Ok (keeps v).
Proof. destruct v; try discriminate. intros _. apply has_issues_dict. Qed.

Lemma forallb_filter {A} (p q : A -> bool) (xs : list A) :
  forallb p xs = true -> forallb p (filter q xs) = true.
Proof.
  rewrite !forallb_forall. intros H x Hx. apply filter_In in Hx. apply H, Hx.
Qed.

Lemma filter_twice {A} (p : A -> bool) (xs : list A) : filter p (filter p xs) = filter p xs.
Proof.
  induction xs as [|x xs IH]; simpl; [reflexivity|].
  destruct (p x) eqn:Hp; simpl; [rewrite Hp, IH|]; auto.
Qed.

Lemma entries_objects (data : list value) :
  forallb is_object data = true ->
  comprehension has_issues (fun entry => Ok entry) data = Ok (filter keeps data).
Proof.
  intros H. rewrite (comprehension_filter_map has_issues _ keeps (fun e => e)).
  - now rewrite map_id.
  - rewrite forallb_forall in H. apply Forall_forall.
    intros e He. split; [apply has_issues_keeps, H, He | reflexivity].
Qed.

Lemma entries_iff (data kept : list value) :
  comprehension has_issues (fun entry => Ok entry) data = Ok kept
  <-> forallb is_object data = true /\ kept = filter keeps data.
Proof.
  split.
  - intros H. destruct (forallb is_object data) eqn:Hobj.
    + rewrite (entries_objects data Hobj) in H. injection H as <-. now split.
    + destruct (comprehension_not_objects (fun entry : value => Ok entry) data Hobj)
        as (e & He & _). rewrite He in H. discriminate.
  - intros [Hobj ->]. apply entries_objects, Hobj.
Qed.

(** X1. The filter of the two summary scripts ends normally exactly when
    every item of the array is an object, and it then holds the items whose
    [errorCount] or [warningCount] has a true value, in their order. *)
Theorem entries_characterized (data kept : list value) :
  (lint_report_summary.entries (VList data) = Ok kept
   <-> forallb is_object data = true /\ kept = filter keeps data)
  /\ (lint_summary.entries (VList data) = Ok kept
      <-> forallb is_object data = true /\ kept = filter keeps data).
Proof. split; apply entries_iff. Qed.

Lemma entries_characterized_witness :
  lint_summary.entries
    (VList [VDict [("errorCount", VBool true)]; VDict [("warningCount", VStr "0")];
            VDict [("errorCount", VInt 0); ("warningCount", VNone)]])
  = Ok [VDict [("errorCount", VBool true)]; VDict [("warningCount", VStr "0")]].
Proof.
  apply (proj2 (entries_characterized _ _)). split; reflexivity.
Defined.

(** X2. Filtering is idempotent: when the filter of a summary script ends
    normally on an array, running it again on what it kept gives the same
    list. *)
Theorem entries_idempotent (data kept : list value) :
  lint_summary.entries (VList data) = Ok kept ->
  lint_summary.entries (VList kept) = Ok kept
  /\ lint_report_summary.entries (VList kept) = Ok kept.
Proof.
  intros H. apply entries_iff in H. destruct H as [Hobj ->].
  split; apply entries_iff; (split; [apply forallb_filter, Hobj | symmetry; apply filter_twice]).
Qed.

Lemma entries_idempotent_witness :
  lint_summary.entries (VList sample_report) = Ok (filter keeps sample_report)
  /\ lint_summary.entries (VList (filter keeps sample_report))
     = Ok (filter keeps sample_report).
Proof.
  split; [reflexivity|].
  exact (proj1 (entries_idempotent sample_report (filter keeps sample_report) eq_refl)).
Defined.

(** ** The paths of [lint_files] and the entries of the summaries *)

Lemma comprehension_paths {A} (cond : value -> result bool) (elt : value -> result A)
    (xs : list value) (ys : list A) :
  comprehension cond elt xs = Ok ys ->
  exists kept,
    comprehension cond (fun x => Ok x) xs = Ok kept
    /\ Forall2 (fun x y => elt x = Ok y) kept ys.
Proof.
  revert ys. induction xs as [|x xs IH]; simpl; intros ys H.
  - injection H as <-. exists []. split; [reflexivity | constructor].
  - destruct (cond x) as [[|]|]; cbn [rbind] in *; try discriminate.
    + destruct (elt x) as [y|] eqn:Hy; [|discriminate]. cbn [rbind] in H.
      destruct (comprehension cond elt xs) as [ys'|]; [|discriminate].
      injection H as <-. destruct (IH ys' eq_refl) as (kept & -> & HF).
      exists (x :: kept). split; [reflexivity | now constructor].
    + exact (IH ys H).
Qed.

Lemma comprehension_elements {A} (cond : value -> result bool) (elt : value -> result A)
    (xs kept : list value) :
  comprehension cond (fun x => Ok x) xs = Ok kept ->
  (exists ys, comprehension cond elt xs = Ok ys /\ Forall2 (fun x y => elt x = Ok y) kept ys)
  \/ (exists e, comprehension cond elt xs = Raise e /\ Exists (fun x => elt x = Raise e) kept).
Proof.
  revert kept. induction xs as [|x xs IH]; simpl; intros kept H.
  - injection H as <-. left. exists []. split; [reflexivity | constructor].
  - destruct (cond x) as [[|]|]; cbn [rbind] in *; try discriminate.
    + destruct (comprehension cond (fun x => Ok x) xs) as [kept'|]; [|discriminate].
      injection H as <-.
      destruct (elt x) as [y|e] eqn:Hy; cbn [rbind].
      * destruct (IH kept' eq_refl) as [(ys & -> & HF) | (e & -> & HE)].
        -- left. exists (y :: ys). split; [reflexivity | now constructor].
        -- right. exists e. split; [reflexivity | now apply Exists_cons_tl].
      * right. exists e. split; [reflexivity | now apply Exists_cons_hd].
    + exact (IH kept H).
Qed.

(** X3. [lint_files] and the summary scripts keep the same entries. When
    the path list of [lint_files] is built, the filter of the summaries ends
    normally too and the paths are the [filePath] values of its entries, one
    for one; when the filter of the summaries ends normally, [lint_files]
    either builds these paths or raises the exception of [entry["filePath"]]
    on one of the kept entries. *)
Theorem files_are_paths_of_entries (data : value) :
  (forall paths,
     lint_files.files data = Ok paths ->
     exists kept,
       lint_summary.entries data = Ok kept
       /\ Forall2 (fun entry path => getitem entry "filePath" = Ok path) kept paths)
  /\ (forall kept,
        lint_summary.entries data = Ok kept ->
        (exists paths,
           lint_files.files data = Ok paths
           /\ Forall2 (fun entry path => getitem entry "filePath" = Ok path) kept paths)
        \/ (exists e,
              lint_files.files data = Raise e
              /\ Exists (fun entry => getitem entry "filePath" = Raise e) kept)).
Proof.
  unfold lint_files.files, lint_summary.entries.
  destruct (iter data) as [items|e]; cbn [rbind].
  - split.
    + intros paths H. exact (comprehension_paths _ _ _ _ H).
    + intros kept H. exact (comprehension_elements _ _ _ _ H).
  - split; intros ? H; discriminate.
Qed.

Lemma files_are_paths_of_entries_witness :
  (exists kept,
     lint_summary.entries (VList sample_report) = Ok kept
     /\ Forall2 (fun entry path => getitem entry "filePath" = Ok path) kept
          [VStr "a.ts"; VStr "d.ts"])
  /\ lint_files.files (VList [VDict [("errorCount", VInt 1)]]) = Raise (KeyError "filePath").
Proof.
  split.
  - exact (proj1 (files_are_paths_of_entries (VList sample_report)) _ eq_refl).
  - reflexivity.
Defined.

(** ** What [lint_files] prints *)

Lemma for_each_print (paths : list value) :
  for_each paths (fun path => print (str path)) = Run (map str paths) (Ok tt).
Proof.
  induction paths as [|p paths IH]; simpl; [reflexivity|].
  rewrite bind_print, IH. reflexivity.
Qed.

Lemma issue_filter_exact_paths (data : list value) :
  is_report data = true ->
  exists paths,
    lint_files.files (VList data) = Ok paths
    /\ Forall2 (fun entry path => getitem entry "filePath" = Ok path)
         (filter flagged data) paths.
Proof.
  intros H.
  unfold lint_files.files. simpl iter. cbn [rbind].
  destruct (comprehension_elements has_issues (fun entry => getitem entry "filePath")
              data (filter flagged data) (entries_report data H))
    as [Hok | (e & _ & Hex)].
  - exact Hok.
  - exfalso. pose proof (report_filter data H) as Hfe.
    rewrite Forall_forall in Hfe. apply Exists_exists in Hex.
    destruct Hex as (x & Hx & Hraise).
    destruct (file_entry_fields x (Hfe x Hx)) as (d & p & -> & Hp & _).
    unfold getitem in Hraise. rewrite Hp in Hraise. discriminate.
Qed.

(** X4. A kept entry without a [filePath] key silences [lint_files]
    altogether: wherever the entry is in the array, the path list is not
    built, the script ends with [KeyError] on [filePath] and prints no path,
    not even those of the kept entries before it; [lint_summary] on the same
    array prints at least its header. *)
Theorem lint_files_silent_on_missing_path (data : list value) (d : dict) :
  forallb is_object data = true ->
  In (VDict d) (filter keeps data) ->
  lookup d "filePath" = None ->
  lint_files.main (Json (VList data)) = Run [] (Raise (KeyError "filePath"))
  /\ exists lines,
       printed (lint_summary.main (Json (VList data)))
       = files_with_issues (List.length (filter keeps data)) :: lines.
Proof.
  intros Hobj Hin Hp.
  pose proof (entries_objects data Hobj) as He. split.
  - unfold lint_files.main, lint_files.files. simpl load. rewrite bind_lift_ok.
    simpl iter. cbn [rbind].
    destruct (comprehension_elements has_issues (fun entry => getitem entry "filePath")
                data (filter keeps data) He) as [(paths & _ & HF) | (e & -> & Hex)].
    + destruct (Forall2_In_l _ _ _ _ HF Hin) as (y & _ & Hy).
      unfold getitem in Hy. rewrite Hp in Hy. discriminate.
    + apply Exists_exists in Hex. destruct Hex as (x & Hx & Hraise).
      pose proof (forallb_filter is_object keeps data Hobj) as Hobjs.
      rewrite forallb_forall in Hobjs. specialize (Hobjs x Hx).
      destruct x as [| | | | |dx]; try discriminate.
      unfold getitem in Hraise. destruct (lookup dx "filePath"); [discriminate|].
      injection Hraise as <-. reflexivity.
  - eexists. rewrite (detail_main_entries (VList data) (filter keeps data)).
    + reflexivity.
    + unfold lint_summary.entries. simpl iter. cbn [rbind]. exact He.
Qed.

Lemma lint_files_silent_on_missing_path_witness :
  lint_files.main
    (Json (VList [sample_entry "a.ts" 1 0; sample_entry "b.ts" 0 2;
                  VDict [("errorCount", VInt 3)]]))
  = Run [] (Raise (KeyError "filePath")).
Proof.
  refine (proj1 (lint_files_silent_on_missing_path
                   [sample_entry "a.ts" 1 0; sample_entry "b.ts" 0 2;
                    VDict [("errorCount", VInt 3)]]
                   [("errorCount", VInt 3)] eq_refl _ eq_refl)).
  right. right. left. reflexivity.
Defined.

(** X5. On a report [lint_files] prints one line for each flagged entry,
    the [filePath] string alone, in the order of the report and with no
    header, and ends normally; with no flagged entry it prints nothing. *)
Theorem lint_files_lists_paths (data : list value) :
  is_report data = true ->
  exists paths : list string,
    lint_files.main (Json (VList data)) = Run paths (Ok tt)
    /\ Forall2 (fun entry path => getitem entry "filePath" = Ok (VStr path))
         (filter flagged data) paths
    /\ List.length paths = List.length (filter flagged data)
    /\ (filter flagged data = [] -> paths = []).
Proof.
  intros H. destruct (issue_filter_exact_paths data H) as (vals & Hf & HF).
  exists (map str vals).
  unfold lint_files.main. simpl load. rewrite bind_lift_ok, Hf, bind_lift_ok, for_each_print.
  split; [reflexivity|].
  pose proof (report_filter data H) as Hfe.
  assert (HF' : Forall2 (fun entry path => getitem entry "filePath" = Ok (VStr path))
                  (filter flagged data) (map str vals)).
  { clear Hf. induction HF as [|e v es vs Hev _ IH]; simpl; constructor.
    - inversion Hfe as [|? ? He _]; subst.
      destruct (file_entry_fields e He) as (d & p & -> & Hp & _).
      unfold getitem in *. rewrite Hp in *. injection Hev as <-. reflexivity.
    - apply IH. now inversion Hfe. }
  split; [exact HF'|]. split.
  - symmetry. exact (Forall2_length HF').
  - intros Hnil. rewrite Hnil in HF'. now inversion HF'.
Qed.

Lemma lint_files_lists_paths_witness :
  is_report sample_report = true
  /\ exists paths : list string,
       lint_files.main (Json (VList sample_report)) = Run paths (Ok tt)
       /\ List.length paths = 2%nat.
Proof.
  split; [reflexivity|].
  destruct (lint_files_lists_paths sample_report eq_refl) as (paths & Hrun & _ & Hlen & _).
  exists paths. split; [exact Hrun | exact Hlen].
Defined.

(** ** The header and the loops of the summaries *)

Lemma compact_main_entries (data : value) (kept : list value) :
  lint_report_summary.entries data = Ok kept ->
  lint_report_summary.main (Json data)
  = Run (files_with_issues (List.length kept)
           :: printed (for_each (firstn 20 kept) lint_report_summary.body))
        (ending (for_each (firstn 20 kept) lint_report_summary.body)).
Proof.
  intros H. unfold lint_report_summary.main. simpl negb. cbv iota. simpl load.
  rewrite bind_lift_ok, H, bind_lift_ok, bind_print. reflexivity.
Qed.

(** A loop stops at the first item whose body raises, after the output of
    the items before it and of that body. *)
Lemma for_each_stops {A} (body : A -> run unit) (good : list A) (bad : A) (rest : list A)
    (outs : list (list string)) (out : list string) (e : exn) :
  Forall2 (fun x o => body x = Run o (Ok tt)) good outs ->
  body bad = Run out (Raise e) ->
  for_each (good ++ bad :: rest) body = Run (List.concat outs ++ out) (Raise e).
Proof.
  intros HF Hbad. induction HF as [|x o good outs Hx _ IH]; simpl.
  - rewrite Hbad. reflexivity.
  - rewrite Hx, bind_done, IH. simpl. now rewrite app_assoc.
Qed.

(** X6. The two summary scripts begin alike on every report file: either
    both end with the same exception before printing anything, or both
    print first the same header, the number of kept entries followed by
    [files with issues], whatever happens in their loops afterwards. *)
Theorem summaries_same_header (f : report_file) :
  (exists e,
     lint_report_summary.main f = Run [] (Raise e)
     /\ lint_summary.main f = Run [] (Raise e))
  \/ (exists data kept compact_lines detail_lines,
        f = Json data
        /\ lint_summary.entries data = Ok kept
        /\ printed (lint_report_summary.main f)
           = files_with_issues (List.length kept) :: compact_lines
        /\ printed (lint_summary.main f)
           = files_with_issues (List.length kept) :: detail_lines).
Proof.
  destruct f as [| |data].
  - left. eexists. split; reflexivity.
  - left. eexists. split; reflexivity.
  - destruct (lint_summary.entries data) as [kept|e] eqn:He.
    + right. exists data, kept. do 2 eexists. split; [reflexivity|]. split; [exact He|].
      rewrite (compact_main_entries data kept He), (detail_main_entries data kept He).
      split; reflexivity.
    + left. exists e.
      unfold lint_report_summary.main, lint_summary.main. simpl negb. cbv iota. simpl load.
      rewrite !bind_lift_ok.
      change (lint_report_summary.entries data) with (lint_summary.entries data).
      rewrite He. split; reflexivity.
Qed.

Lemma detail_blocks_done (good : list value) :
  Forall (fun e => is_file_entry e = true) good ->
  exists blocks,
    Forall2 (fun entry block => lint_summary.body entry = Run block (Ok tt)) good blocks.
Proof.
  intros H. apply Forall_choose. revert H. apply Forall_impl.
  intros e He. destruct (detail_body_file_entry e He) as (path & lines & _ & Hrun).
  eexists. exact Hrun.
Qed.

Lemma compact_lines_done (good : list value) :
  Forall (fun e => is_file_entry e = true) good ->
  exists lines,
    Forall2 (fun entry l => lint_report_summary.body entry = Run [l] (Ok tt)) good lines.
Proof.
  intros H. apply Forall_choose. revert H. apply Forall_impl.
  intros e He. exact (compact_body_file_entry e He).
Qed.

Lemma detail_body_no_path (d : dict) :
  lookup d "filePath" = None ->
  lint_summary.body (VDict d) = Run [] (Raise (KeyError "filePath")).
Proof. intros H. unfold lint_summary.body, getitem. rewrite H. reflexivity. Qed.

(** X7. [lint_summary] stops at the first kept entry that has no [filePath]
    key: after the header, which counts every kept entry, it has printed the
    blocks of the entries before that one and nothing of it or of the entries
    after it, and it ends with [KeyError] on [filePath]. *)
Theorem detail_stops_at_missing_path (data good rest : list value) (d : dict) :
  forallb is_object data = true ->
  filter keeps data = (good ++ VDict d :: rest)%list ->
  Forall (fun e => is_file_entry e = true) good ->
  lookup d "filePath" = None ->
  exists blocks,
    lint_summary.main (Json (VList data))
    = Run (files_with_issues (S (List.length good + List.length rest)) :: List.concat blocks)
        (Raise (KeyError "filePath"))
    /\ Forall2 (fun entry block => lint_summary.body entry = Run block (Ok tt)) good blocks.
Proof.
  intros Hobj Hkept Hgood Hp.
  destruct (detail_blocks_done good Hgood) as [blocks Hb].
  exists blocks. split; [|exact Hb].
  rewrite (detail_main_entries (VList data) (good ++ VDict d :: rest)%list).
  - rewrite (for_each_stops _ good (VDict d) rest blocks [] _ Hb (detail_body_no_path d Hp)).
    cbn [printed ending]. rewrite app_nil_r, length_app. simpl List.length.
    now rewrite Nat.add_succ_r.
  - unfold lint_summary.entries. simpl iter. cbn [rbind].
    rewrite <- Hkept. apply entries_objects, Hobj.
Qed.

Lemma detail_stops_at_missing_path_witness :
  exists blocks,
    lint_summary.main
      (Json (VList [sample_entry "a.ts" 1 0; VDict [("errorCount", VInt 3)];
                    sample_entry "c.ts" 0 2]))
    = Run ("3 files with issues" :: List.concat blocks) (Raise (KeyError "filePath"))
    /\ List.length blocks = 1%nat.
Proof.
  destruct (detail_stops_at_missing_path
              [sample_entry "a.ts" 1 0; VDict [("errorCount", VInt 3)]; sample_entry "c.ts" 0 2]
              [sample_entry "a.ts" 1 0] [sample_entry "c.ts" 0 2] [("errorCount", VInt 3)]
              eq_refl eq_refl ltac:(repeat constructor) eq_refl)
    as (blocks & Hrun & HF).
  exists blocks. split; [exact Hrun | symmetry; exact (Forall2_length HF)].
Defined.

(** X8. [lint_report_summary] never looks at a kept entry after the 20th:
    when the first 20 kept entries are FileEntry records it prints the
    header, which counts every kept entry, and 20 lines, and ends normally,
    even if a later kept entry has no [filePath]; [lint_summary], which
    goes through all of them, then ends with [KeyError] on [filePath]. *)
Theorem compact_ignores_entries_past_cap (data first rest : list value) :
  forallb is_object data = true ->
  filter keeps data = (first ++ rest)%list ->
  List.length first = 20%nat ->
  Forall (fun e => is_file_entry e = true) first ->
  (exists lines,
     lint_report_summary.main (Json (VList data))
     = Run (files_with_issues (20 + List.length rest) :: lines) (Ok tt)
     /\ Forall2 (fun entry l => lint_report_summary.body entry = Run [l] (Ok tt)) first lines
     /\ List.length lines = 20%nat)
  /\ (forall d rest',
        rest = VDict d :: rest' -> lookup d "filePath" = None ->
        ending (lint_summary.main (Json (VList data))) = Raise (KeyError "filePath")).
Proof.
  intros Hobj Hkept Hlen Hfirst.
  assert (He : comprehension has_issues (fun entry => Ok entry) data = Ok (first ++ rest)%list).
  { rewrite <- Hkept. apply entries_objects, Hobj. }
  split.
  - destruct (compact_lines_done first Hfirst) as [lines Hl].
    exists lines.
    rewrite (compact_main_entries (VList data) (first ++ rest)%list)
      by (unfold lint_report_summary.entries; simpl iter; cbn [rbind]; exact He).
    rewrite firstn_app, <- Hlen, firstn_all, Nat.sub_diag, firstn_O, app_nil_r.
    rewrite (for_each_lines _ _ _ Hl). cbn [printed ending].
    rewrite length_app. repeat split; [exact Hl|].
    rewrite <- (Forall2_length Hl). reflexivity.
  - intros d rest' -> Hp.
    destruct (detail_blocks_done first Hfirst) as [blocks Hb].
    rewrite (detail_main_entries (VList data) (first ++ VDict d :: rest')%list)
      by (unfold lint_summary.entries; simpl iter; cbn [rbind]; exact He).
    rewrite (for_each_stops _ first (VDict d) rest' blocks [] _ Hb (detail_body_no_path d Hp)).
    reflexivity.
Qed.

Lemma compact_ignores_entries_past_cap_witness :
  (exists lines,
     lint_report_summary.main
       (Json (VList (map numbered_entry (seq 1 20) ++ [VDict [("warningCount", VInt 1)]])))
     = Run (files_with_issues 21 :: lines) (Ok tt)
     /\ List.length lines = 20%nat)
  /\ ending (lint_summary.main
       (Json (VList (map numbered_entry (seq 1 20) ++ [VDict [("warningCount", VInt 1)]]))))
     = Raise (KeyError "filePath").
Proof.
  destruct (compact_ignores_entries_past_cap
              (map numbered_entry (seq 1 20) ++ [VDict [("warningCount", VInt 1)]])
              (map numbered_entry (seq 1 20)) [VDict [("warningCount", VInt 1)]]
              eq_refl eq_refl eq_refl ltac:(repeat constructor))
    as ((lines & Hrun & _ & Hlen) & Hdetail).
  split.
  - exists lines. split; [exact Hrun | exact Hlen].
  - exact (Hdetail _ _ eq_refl eq_refl).
Defined.

(** ** The messages of an entry *)

(** X9. For an entry with a [filePath] whose [messages] is a list of objects
    (or is absent), [lint_summary] prints the path line and then one line
    for each message, in the order of the list, and the count that
    [lint_report_summary] prints for the entry is the number of these
    lines. The count is the length of the list even when its items are not
    objects. *)
Theorem message_count_matches_lines (d : dict) (path : value) (msgs : list value) :
  lookup d "filePath" = Some path ->
  lookup_or d "messages" (VList []) = VList msgs ->
  lint_report_summary.body (VDict d)
  = Run [str path ++ " - " ++ str_of_Z (Z.of_nat (List.length msgs)) ++ " messages"] (Ok tt)
  /\ (forallb is_object msgs = true ->
      exists lines,
        lint_summary.body (VDict d) = Run (String newline_char (str path) :: lines) (Ok tt)
        /\ Forall2 (fun msg l => lint_summary.message_line msg = Run [l] (Ok tt)) msgs lines
        /\ List.length lines = List.length msgs).
Proof.
  intros Hp Hm. split.
  - apply (compact_body_dict d path _ Hp). rewrite Hm. reflexivity.
  - intros Hobj. destruct (message_lines_each msgs Hobj) as (lines & Hrun & HF).
    exists lines. split; [|split].
    + apply (detail_body_dict d path msgs lines Hp); [now rewrite Hm | exact Hrun].
    + exact HF.
    + symmetry. exact (Forall2_length HF).
Qed.

Lemma message_count_matches_lines_witness :
  lint_report_summary.body
    (VDict [("filePath", VStr "a.ts");
            ("messages", VList [VDict [("ruleId", VStr "semi")]; VDict []])])
  = Run ["a.ts - 2 messages"] (Ok tt)
  /\ exists lines,
       lint_summary.body
         (VDict [("filePath", VStr "a.ts");
                 ("messages", VList [VDict [("ruleId", VStr "semi")]; VDict []])])
       = Run (String newline_char "a.ts" :: lines) (Ok tt)
       /\ List.length lines = 2%nat.
Proof.
  destruct (message_count_matches_lines
              [("filePath", VStr "a.ts");
               ("messages", VList [VDict [("ruleId", VStr "semi")]; VDict []])]
              (VStr "a.ts") [VDict [("ruleId", VStr "semi")]; VDict []] eq_refl eq_refl)
    as (Hc & Hd).
  split; [exact Hc|].
  destruct (Hd eq_refl) as (lines & Hrun & _ & Hlen).
  exists lines. split; [exact Hrun | exact Hlen].
Defined.

(** X10. A [messages] key bound to a value that cannot be iterated (JSON
    null, a boolean or a number) is not read as an empty sequence: on such
    an entry [lint_report_summary] raises [TypeError] at [len] and prints
    no line for it, and [lint_summary] prints the path line and then
    raises [TypeError]. *)
Theorem messages_not_iterable (d : dict) (path v : value) :
  lookup d "filePath" = Some path ->
  lookup d "messages" = Some v ->
  iter v = Raise TypeError ->
  lint_report_summary.body (VDict d) = Run [] (Raise TypeError)
  /\ lint_summary.body (VDict d) = Run [String newline_char (str path)] (Raise TypeError).
Proof.
  intros Hp Hm Hv.
  assert (Hlen : len v = Raise TypeError) by (destruct v; try discriminate; reflexivity).
  split.
  - unfold lint_report_summary.body.
    rewrite get_dict, bind_lift_ok, (lookup_or_some _ _ _ _ Hm), Hlen. reflexivity.
  - unfold lint_summary.body, getitem.
    rewrite Hp, bind_lift_ok, bind_print, get_dict, bind_lift_ok.
    rewrite (lookup_or_some _ _ _ _ Hm), Hv. reflexivity.
Qed.

Lemma messages_not_iterable_witness :
  lint_summary.main
    (Json (VList [VDict [("filePath", VStr "a.ts"); ("errorCount", VInt 1);
                         ("messages", VNone)]]))
  = Run ["1 files with issues"; String newline_char "a.ts"] (Raise TypeError)
  /\ lint_report_summary.body
       (VDict [("filePath", VStr "a.ts"); ("errorCount", VInt 1); ("messages", VNone)])
     = Run [] (Raise TypeError).
Proof.
  split; [reflexivity|].
  exact (proj1 (messages_not_iterable
                  [("filePath", VStr "a.ts"); ("errorCount", VInt 1); ("messages", VNone)]
                  (VStr "a.ts") VNone eq_refl eq_refl eq_refl)).
Defined.

(** ** The exceptions a script can end with *)

Lemma ending_bind {A B} (m : run A) (k : A -> run B) (e : exn) :
  ending (bind m k) = Raise e ->
  ending m = Raise e \/ exists a, ending m = Ok a /\ ending (k a) = Raise e.
Proof.
  unfold bind. destruct (ending m) as [a|e']; simpl; intros H.
  - right. exists a. now split.
  - left. now injection H as ->.
Qed.

Lemma for_each_raises {A} (body : A -> run unit) (xs : list A) (e : exn) :
  ending (for_each xs body) = Raise e -> exists x, In x xs /\ ending (body x) = Raise e.
Proof.
  induction xs as [|x xs IH]; simpl; intros H; [discriminate|].
  apply ending_bind in H. destruct H as [H | (_ & _ & H)].
  - exists x. split; [now left | exact H].
  - destruct (IH H) as (y & Hy & He). exists y. split; [now right | exact He].
Qed.

Lemma get_raises (v : value) (k : string) (dflt : value) (e : exn) :
  get v k dflt = Raise e -> e = AttributeError.
Proof.
  destruct v; simpl; try (intros H; now injection H as <-).
  destruct (lookup fields k); discriminate.
Qed.

Lemma getitem_raises (v : value) (k : string) (e : exn) :
  getitem v k = Raise e -> e = TypeError \/ e = KeyError k.
Proof.
  destruct v; simpl; try (intros H; injection H as <-; now left).
  destruct (lookup fields k); [discriminate|]. intros H. injection H as <-. now right.
Qed.

Lemma iter_raises (v : value) (e : exn) : iter v = Raise e -> e = TypeError.
Proof. destruct v; simpl; intros H; try discriminate; now injection H as <-. Qed.

Lemma len_raises (v : value) (e : exn) : len v = Raise e -> e = TypeError.
Proof. destruct v; simpl; intros H; try discriminate; now injection H as <-. Qed.

Lemma has_issues_raises (v : value) (e : exn) : has_issues v = Raise e -> e = AttributeError.
Proof.
  destruct v; simpl; try (intros H; now injection H as <-).
  rewrite has_issues_dict. discriminate.
Qed.

Lemma comprehension_raises {A} (elt : value -> result A) (xs : list value) (e : exn) :
  comprehension has_issues elt xs = Raise e ->
  e = AttributeError \/ exists x, elt x = Raise e.
Proof.
  induction xs as [|x xs IH]; simpl; intros H; [discriminate|].
  destruct (has_issues x) as [[|]|e'] eqn:Hx; cbn [rbind] in H.
  - destruct (elt x) as [y|e'] eqn:Hy; cbn [rbind] in H.
    + destruct (comprehension has_issues elt xs); [discriminate|].
      cbn [rbind] in H. injection H as ->. now apply IH.
    + injection H as ->. right. now exists x.
  - now apply IH.
  - injection H as ->. left. exact (has_issues_raises x e Hx).
Qed.

Lemma files_raises (data : value) (e : exn) :
  lint_files.files data = Raise e -> data_error e.
Proof.
  unfold lint_files.files, data_error. destruct (iter data) as [items|e'] eqn:Hi; cbn [rbind].
  - intros H. apply comprehension_raises in H. destruct H as [->|[x Hx]]; [tauto|].
    apply getitem_raises in Hx. tauto.
  - intros H. injection H as ->. apply iter_raises in Hi. tauto.
Qed.

Lemma entries_raises (data : value) (e : exn) :
  lint_summary.entries data = Raise e -> data_error e.
Proof.
  unfold lint_summary.entries, data_error. destruct (iter data) as [items|e'] eqn:Hi; cbn [rbind].
  - intros H. apply comprehension_raises in H. destruct H as [->|[x Hx]]; [tauto|discriminate].
  - intros H. injection H as ->. apply iter_raises in Hi. tauto.
Qed.

Lemma message_line_raises (msg : value) (e : exn) :
  ending (lint_summary.message_line msg) = Raise e -> e = AttributeError.
Proof.
  destruct msg; simpl; try (intros H; now injection H as <-).
  rewrite message_line_dict. discriminate.
Qed.

Lemma compact_body_raises (entry : value) (e : exn) :
  ending (lint_report_summary.body entry) = Raise e -> data_error e.
Proof.
  unfold lint_report_summary.body, data_error.
  destruct (get entry "messages" (VList [])) as [m|e1] eqn:Hg.
  - rewrite bind_lift_ok. destruct (len m) as [n|e2] eqn:Hl.
    + rewrite bind_lift_ok. destruct (getitem entry "filePath") as [p|e3] eqn:Hp.
      * rewrite bind_lift_ok. discriminate.
      * simpl. intros H. injection H as ->. apply getitem_raises in Hp. tauto.
    + simpl. intros H. injection H as ->. apply len_raises in Hl. tauto.
  - simpl. intros H. injection H as ->. apply get_raises in Hg. tauto.
Qed.

Lemma detail_body_raises (entry : value) (e : exn) :
  ending (lint_summary.body entry) = Raise e -> data_error e.
Proof.
  unfold lint_summary.body, data_error.
  destruct (getitem entry "filePath") as [p|e1] eqn:Hp.
  - rewrite bind_lift_ok, bind_print. cbn [ending].
    destruct (get entry "messages" (VList [])) as [m|e2] eqn:Hg.
    + rewrite bind_lift_ok. destruct (iter m) as [msgs|e3] eqn:Hi.
      * rewrite bind_lift_ok. intros H. apply for_each_raises in H.
        destruct H as (msg & _ & H). apply message_line_raises in H. tauto.
      * simpl. intros H. injection H as ->. apply iter_raises in Hi. tauto.
    + simpl. intros H. injection H as ->. apply get_raises in Hg. tauto.
  - simpl. intros H. injection H as ->. apply getitem_raises in Hp. tauto.
Qed.

(** Within the boundaries of the model, how a script that does not end
    normally ends. *)
Lemma endings_in_model (f : report_file) (e : exn) :
  (ending (lint_files.main f) = Raise e ->
   (f = Missing /\ e = FileNotFoundError) \/ (exists_ f = true /\ data_error e))
  /\ (ending (lint_report_summary.main f) = Raise e ->
      (f = Missing /\ e = SystemExit not_found) \/ (exists_ f = true /\ data_error e))
  /\ (ending (lint_summary.main f) = Raise e ->
      (f = Missing /\ e = SystemExit not_found) \/ (exists_ f = true /\ data_error e)).
Proof.
  destruct f as [| |data].
  - repeat split; intros H; left; (split; [reflexivity | now injection H as <-]).
  - repeat split; intros H; right; (split; [reflexivity|]);
      injection H as <-; unfold data_error; tauto.
  - split; [|split]; intros H; right; (split; [reflexivity|]).
    + unfold lint_files.main in H. simpl load in H. rewrite bind_lift_ok in H.
      destruct (lint_files.files data) as [paths|e'] eqn:Hf.
      * rewrite bind_lift_ok, for_each_print in H. discriminate.
      * injection H as ->. exact (files_raises data e Hf).
    + destruct (lint_report_summary.entries data) as [kept|e'] eqn:He.
      * rewrite (compact_main_entries data kept He) in H. cbn [ending] in H.
        apply for_each_raises in H. destruct H as (x & _ & H).
        exact (compact_body_raises x e H).
      * unfold lint_report_summary.main in H. simpl negb in H. cbv iota in H.
        simpl load in H. rewrite bind_lift_ok, He in H. injection H as ->.
        exact (entries_raises data e He).
    + destruct (lint_summary.entries data) as [kept|e'] eqn:He.
      * rewrite (detail_main_entries data kept He) in H. cbn [ending] in H.
        apply for_each_raises in H. destruct H as (x & _ & H).
        exact (detail_body_raises x e H).
      * unfold lint_summary.main in H. simpl negb in H. cbv iota in H.
        simpl load in H. rewrite bind_lift_ok, He in H. injection H as ->.
        exact (entries_raises data e He).
Qed.

(** X11. The converse of the missing-file exit. A summary script that ends
    with [SystemExit] was run without the report file, and the argument of
    the exit is the not-found message: no other path of the scripts raises
    it, so the message is never given for a file that exists. [lint_files]
    never ends with [SystemExit]. *)
Theorem not_found_only_when_missing (f : report_file) (arg : string) :
  (ending (lint_report_summary.main f) = Raise (SystemExit arg) ->
   exists_ f = false /\ arg = not_found)
  /\ (ending (lint_summary.main f) = Raise (SystemExit arg) ->
      exists_ f = false /\ arg = not_found)
  /\ ending (lint_files.main f) <> Raise (SystemExit arg).
Proof.
  destruct (endings_in_model f (SystemExit arg)) as (Hf & Hc & Hd).
  assert (Hdata : ~ data_error (SystemExit arg)).
  { unfold data_error. intros [H|[H|[H|H]]]; discriminate. }
  split; [|split].
  - intros H. destruct (Hc H) as [[-> Harg] | [_ Herr]]; [|contradiction].
    split; [reflexivity | now injection Harg as ->].
  - intros H. destruct (Hd H) as [[-> Harg] | [_ Herr]]; [|contradiction].
    split; [reflexivity | now injection Harg as ->].
  - intros H. destruct (Hf H) as [[_ Harg] | [_ Herr]]; [discriminate | contradiction].
Qed.

Lemma not_found_only_when_missing_witness :
  ending (lint_summary.main Missing) = Raise (SystemExit not_found)
  /\ exists_ Missing = false.
Proof.
  split; [reflexivity|].
  exact (proj1 (proj1 (proj2 (not_found_only_when_missing Missing not_found)) eq_refl)).
Defined.

(** X12. When every item of the array is an object and none has a true
    [errorCount] or [warningCount], the scripts end normally whatever else
    the items hold, a missing [filePath] included: [lint_files] prints
    nothing and each summary prints the one line [0 files with issues]. *)
Theorem nothing_kept_nothing_listed (data : list value) :
  forallb is_object data = true ->
  filter keeps data = [] ->
  lint_files.main (Json (VList data)) = Run [] (Ok tt)
  /\ lint_report_summary.main (Json (VList data)) = Run ["0 files with issues"] (Ok tt)
  /\ lint_summary.main (Json (VList data)) = Run ["0 files with issues"] (Ok tt).
Proof.
  intros Hobj Hnone.
  assert (He : comprehension has_issues (fun entry => Ok entry) data = Ok []).
  { rewrite <- Hnone. apply entries_objects, Hobj. }
  split; [|split].
  - destruct (comprehension_elements has_issues (fun entry => getitem entry "filePath")
                data [] He) as [(paths & Hf & HF) | (e & _ & Hex)].
    + inversion HF; subst. unfold lint_files.main, lint_files.files. simpl load.
      rewrite bind_lift_ok. simpl iter. cbn [rbind]. rewrite Hf. reflexivity.
    + inversion Hex.
  - rewrite (compact_main_entries (VList data) []); [reflexivity|].
    unfold lint_report_summary.entries. simpl iter. cbn [rbind]. exact He.
  - rewrite (detail_main_entries (VList data) []); [reflexivity|].
    unfold lint_summary.entries. simpl iter. cbn [rbind]. exact He.
Qed.

Lemma nothing_kept_nothing_listed_witness :
  lint_files.main (Json (VList [VDict []; VDict [("errorCount", VInt 0)]])) = Run [] (Ok tt)
  /\ lint_summary.main (Json (VList [VDict []; VDict [("errorCount", VInt 0)]]))
     = Run ["0 files with issues"] (Ok tt).
Proof.
  destruct (nothing_kept_nothing_listed [VDict []; VDict [("errorCount", VInt 0)]]
              eq_refl eq_refl) as (Hf & _ & Hs).
  split; [exact Hf | exact Hs].
Defined.
